(** * Mergington High School activities API: signup and unregister

    A shallow embedding of [src/db.py] (the persistence layer: three SQLModel
    tables, seeding, the activities listing) and of [src/app.py] (the HTTP
    endpoints), followed by the properties of the signup and unregister
    logic.

    Tables are lists of rows in rowid order, which is the order in which an
    unordered [select] scans them and therefore the order that decides what
    [.first()] returns.  A session keeps the durable database next to the
    transaction's own view of it: [session.commit()] publishes the view,
    and leaving the [with] block closes the session, which drops whatever
    was not committed. *)

From stdpp Require Import base decidable option list strings gmap.
From Stdlib Require Import ZArith Lia.

Local Open Scope string_scope.
Local Open Scope list_scope.
Local Open Scope Z_scope.

(** ** The tables of [db.py] *)

Module Activity.
Record t : Type := mk {
  id : Z;
  name : string;
  description : option string;
  schedule : option string;
  max_participants : Z
}.
End Activity.

Module User.
Record t : Type := mk {
  id : Z;
  email : string
}.
End User.

Module Participation.
Record t : Type := mk {
  id : Z;
  activity_id : Z;
  user_id : Z
}.
End Participation.

#[global] Instance Activity_eq_dec : EqDecision Activity.t.
Proof. solve_decision. Defined.

#[global] Instance User_eq_dec : EqDecision User.t.
Proof. solve_decision. Defined.

#[global] Instance Participation_eq_dec : EqDecision Participation.t.
Proof. solve_decision. Defined.

(** The content of the SQLite file: one list of rows per table. *)
Record Database : Type := mkDatabase {
  activity_table : list Activity.t;
  user_table : list User.t;
  participation_table : list Participation.t
}.

#[global] Instance Database_eq_dec : EqDecision Database.
Proof. solve_decision. Defined.

(** What [SQLModel.metadata.create_all] leaves behind on a new file. *)
Definition empty_db : Database := mkDatabase [] [] [].

(** An [INTEGER PRIMARY KEY] column left at [None] is filled in by the
    storage engine: 1 on an empty table, otherwise one more than the largest
    key in use.  Keys are unbounded integers here. *)
Definition next_id (ids : list Z) : Z :=
  match ids with
  | [] => 1
  | i :: rest => foldr Z.max i rest + 1
  end.

(** ** Sessions *)

Record HTTPException : Type := mkHTTPException {
  status_code : Z;
  detail : string
}.

#[global] Instance HTTPException_eq_dec : EqDecision HTTPException.
Proof. solve_decision. Defined.

Inductive Outcome (A : Type) : Type :=
| Return (a : A)
| Raise (e : HTTPException).

Arguments Return {A} a.
Arguments Raise {A} e.

#[global] Instance Outcome_eq_dec `{EqDecision A} : EqDecision (Outcome A).
Proof. solve_decision. Defined.

Record Session : Type := mkSession {
  committed : Database;
  view : Database
}.

(** A block of code running inside [with db.get_session() as session]. *)
Definition Tx (A : Type) : Type := Session → Outcome A * Session.

#[global] Instance tx_ret : MRet Tx := λ A a s, (Return a, s).

#[global] Instance tx_bind : MBind Tx := λ A B k m s,
  match m s with
  | (Return a, s') => k a s'
  | (Raise e, s') => (Raise e, s')
  end.

(** [raise HTTPException(...)] *)
Definition raise {A} (e : HTTPException) : Tx A := λ s, (Raise e, s).

(** [session.exec(q)]: evaluate a query on the transaction's view. *)
Definition exec {A} (q : Database → A) : Tx A := λ s, (Return (q (view s)), s).

(** [session.add(row)] for each table; the row receives its key when it is
    written, and the caller gets the stored row back (what
    [session.refresh] reloads). *)
Definition add_activity (name : string) (description schedule : option string)
    (max_participants : Z) : Tx Activity.t :=
  λ s, let db := view s in
       let row := Activity.mk (next_id (Activity.id <$> activity_table db))
                    name description schedule max_participants in
       (Return row,
        mkSession (committed s)
          (mkDatabase (activity_table db ++ [row]) (user_table db)
             (participation_table db))).

Definition add_user (email : string) : Tx User.t :=
  λ s, let db := view s in
       let row := User.mk (next_id (User.id <$> user_table db)) email in
       (Return row,
        mkSession (committed s)
          (mkDatabase (activity_table db) (user_table db ++ [row])
             (participation_table db))).

Definition add_participation (activity_id user_id : Z) : Tx Participation.t :=
  λ s, let db := view s in
       let row := Participation.mk
                    (next_id (Participation.id <$> participation_table db))
                    activity_id user_id in
       (Return row,
        mkSession (committed s)
          (mkDatabase (activity_table db) (user_table db)
             (participation_table db ++ [row]))).

(** [session.delete(participation)]: the row is removed by primary key. *)
Definition delete_participation (p : Participation.t) : Tx unit :=
  λ s, let db := view s in
       (Return (),
        mkSession (committed s)
          (mkDatabase (activity_table db) (user_table db)
             (filter (λ q, Participation.id q ≠ Participation.id p)
                (participation_table db)))).

(** [session.commit()] *)
Definition commit : Tx unit :=
  λ s, (Return (), mkSession (view s) (view s)).

(** [with get_session() as session: body]: the session starts on the
    durable database and, on either way out of the block, only what was
    committed remains. *)
Definition with_session {A} (body : Tx A) (db : Database) : Outcome A * Database :=
  let '(r, s) := body (mkSession db db) in (r, committed s).

(** [for x in xs: body], threading the loop's local state. *)
Fixpoint for_each {A S} (xs : list A) (body : A → S → Tx S) (acc : S) : Tx S :=
  match xs with
  | [] => mret acc
  | x :: rest => acc' ← body x acc; for_each rest body acc'
  end.

(** ** Queries *)

(** [select(Activity).where(Activity.name == activity_name)] *)
Definition activities_named (activity_name : string) (db : Database) : list Activity.t :=
  filter (λ a, Activity.name a = activity_name) (activity_table db).

(** [select(User).where(User.email == email)] *)
Definition users_with_email (email : string) (db : Database) : list User.t :=
  filter (λ u, User.email u = email) (user_table db).

(** [select(Participation).where(Participation.activity_id == activity_id,
    Participation.user_id == user_id)] *)
Definition participations_of_pair (activity_id user_id : Z) (db : Database)
    : list Participation.t :=
  filter (λ p, Participation.activity_id p = activity_id
               ∧ Participation.user_id p = user_id)
    (participation_table db).

(** [select(Participation).where(Participation.activity_id == activity_id)] *)
Definition participations_of (activity_id : Z) (db : Database) : list Participation.t :=
  filter (λ p, Participation.activity_id p = activity_id) (participation_table db).

(** [select(User.email).join(Participation, Participation.user_id == User.id)
    .where(Participation.activity_id == activity_id)]: one email per
    matching (participation, user) pair, in participation order. *)
Definition participant_emails (activity_id : Z) (db : Database) : list string :=
  p ← participations_of activity_id db;
  u ← filter (λ u, User.id u = Participation.user_id p) (user_table db);
  [User.email u].

(** ** [db.py]: seeding and the listing *)

Record SeedActivity : Type := mkSeed {
  seed_name : string;
  seed_description : string;
  seed_schedule : string;
  seed_max_participants : Z
}.

Definition initial : list SeedActivity := [
  mkSeed "Chess Club"
    "Learn strategies and compete in chess tournaments"
    "Fridays, 3:30 PM - 5:00 PM" 12;
  mkSeed "Programming Class"
    "Learn programming fundamentals and build software projects"
    "Tuesdays and Thursdays, 3:30 PM - 4:30 PM" 20;
  mkSeed "Gym Class"
    "Physical education and sports activities"
    "Mondays, Wednesdays, Fridays, 2:00 PM - 3:00 PM" 30;
  mkSeed "Soccer Team"
    "Join the school soccer team and compete in matches"
    "Tuesdays and Thursdays, 4:00 PM - 5:30 PM" 22;
  mkSeed "Basketball Team"
    "Practice and play basketball with the school team"
    "Wednesdays and Fridays, 3:30 PM - 5:00 PM" 15;
  mkSeed "Art Club"
    "Explore your creativity through painting and drawing"
    "Thursdays, 3:30 PM - 5:00 PM" 15;
  mkSeed "Drama Club"
    "Act, direct, and produce plays and performances"
    "Mondays and Wednesdays, 4:00 PM - 5:30 PM" 20;
  mkSeed "Math Club"
    "Solve challenging problems and participate in math competitions"
    "Tuesdays, 3:30 PM - 4:30 PM" 10;
  mkSeed "Debate Team"
    "Develop public speaking and argumentation skills"
    "Fridays, 4:00 PM - 5:30 PM" 12
].

Definition seed_body : Tx unit :=
  count ← exec (λ db, head (activity_table db));
  match count with
  | None =>
      _ ← for_each initial
            (λ a _,
               _ ← add_activity (seed_name a) (Some (seed_description a))
                     (Some (seed_schedule a)) (seed_max_participants a);
               mret ())
            ();
      commit
  | Some _ => mret ()
  end.

Definition seed_initial_activities_if_needed (db : Database) : Outcome unit * Database :=
  with_session seed_body db.

(** The value stored under each activity name in the listing. *)
Record ActivityInfo : Type := mkInfo {
  info_description : option string;
  info_schedule : option string;
  info_max_participants : Z;
  info_participants : list string
}.

Definition activities_as_dict_body : Tx (gmap string ActivityInfo) :=
  activities ← exec activity_table;
  for_each activities
    (λ activity (out : gmap string ActivityInfo),
       parts ← exec (participant_emails (Activity.id activity));
       mret (<[Activity.name activity :=
                 mkInfo (Activity.description activity)
                   (Activity.schedule activity)
                   (Activity.max_participants activity) parts]> out))
    ∅.

Definition activities_as_dict (db : Database)
    : Outcome (gmap string ActivityInfo) * Database :=
  with_session activities_as_dict_body db.

(** ** [app.py]: the endpoints *)

(** The JSON body [{"message": ...}] of a successful call. *)
Record Message : Type := mkMessage { message : string }.

#[global] Instance Message_eq_dec : EqDecision Message.
Proof. solve_decision. Defined.

Definition get_activities (db : Database)
    : Outcome (gmap string ActivityInfo) * Database :=
  activities_as_dict db.

Definition signup_body (activity_name email : string) : Tx Message :=
  activity ← exec (λ db, head (activities_named activity_name db));
  match activity with
  | None => raise (mkHTTPException 404 "Activity not found")
  | Some activity =>
      user ← exec (λ db, head (users_with_email email db));
      user ← match user with
             | None => user ← add_user email; _ ← commit; mret user
             | Some user => mret user
             end;
      existing ← exec (λ db, head (participations_of_pair
                                     (Activity.id activity) (User.id user) db));
      match existing with
      | Some _ => raise (mkHTTPException 400 "Student is already signed up")
      | None =>
          participants ← exec (participations_of (Activity.id activity));
          if bool_decide (Activity.max_participants activity ≠ 0)
             && bool_decide (Activity.max_participants activity
                             ≤ Z.of_nat (length participants))
          then raise (mkHTTPException 400 "Activity is full")
          else
            _ ← add_participation (Activity.id activity) (User.id user);
            _ ← commit;
            mret (mkMessage ("Signed up " +:+ email +:+ " for " +:+ activity_name))
      end
  end.

Definition signup_for_activity (activity_name email : string) (db : Database)
    : Outcome Message * Database :=
  with_session (signup_body activity_name email) db.

Definition unregister_body (activity_name email : string) : Tx Message :=
  activity ← exec (λ db, head (activities_named activity_name db));
  match activity with
  | None => raise (mkHTTPException 404 "Activity not found")
  | Some activity =>
      user ← exec (λ db, head (users_with_email email db));
      match user with
      | None =>
          raise (mkHTTPException 400 "Student is not signed up for this activity")
      | Some user =>
          participation ← exec (λ db, head (participations_of_pair
                                   (Activity.id activity) (User.id user) db));
          match participation with
          | None =>
              raise (mkHTTPException 400
                       "Student is not signed up for this activity")
          | Some participation =>
              _ ← delete_participation participation;
              _ ← commit;
              mret (mkMessage ("Unregistered " +:+ email +:+ " from "
                               +:+ activity_name))
          end
      end
  end.

Definition unregister_from_activity (activity_name email : string) (db : Database)
    : Outcome Message * Database :=
  with_session (unregister_body activity_name email) db.

(** ** Sequences of requests *)

Inductive Request : Type :=
| Signup (activity_name email : string)
| Unregister (activity_name email : string).

(** The database after one request has been served. *)
Definition serve (db : Database) (r : Request) : Database :=
  match r with
  | Signup activity_name email => (signup_for_activity activity_name email db).2
  | Unregister activity_name email =>
      (unregister_from_activity activity_name email db).2
  end.

(** Requests served one after the other. *)
Definition serve_all (rs : list Request) (db : Database) : Database :=
  foldl serve db rs.

(** Signing several students up for one activity, one request each; the
    responses are collected in request order. *)
Fixpoint signup_each (activity_name : string) (emails : list string) (db : Database)
    : list (Outcome Message) * Database :=
  match emails with
  | [] => ([], db)
  | email :: rest =>
      let '(r, db') := signup_for_activity activity_name email db in
      let '(rs, db'') := signup_each activity_name rest db' in
      (r :: rs, db'')
  end.

(** ** Schema constraints and derived notions *)

(** Primary keys identify rows, and the two [foreign_key] columns of
    [Participation] point at stored rows. *)
Record store_ok (db : Database) : Prop := mk_store_ok {
  activity_pk : NoDup (Activity.id <$> activity_table db);
  user_pk : NoDup (User.id <$> user_table db);
  participation_pk : NoDup (Participation.id <$> participation_table db);
  activity_fk : ∀ p, p ∈ participation_table db →
                  Participation.activity_id p ∈ Activity.id <$> activity_table db;
  user_fk : ∀ p, p ∈ participation_table db →
              Participation.user_id p ∈ User.id <$> user_table db
}.

(** The same constraints as a test that can be run on a concrete database. *)
Definition check_store (db : Database) : bool :=
  bool_decide (NoDup (Activity.id <$> activity_table db))
  && bool_decide (NoDup (User.id <$> user_table db))
  && bool_decide (NoDup (Participation.id <$> participation_table db))
  && forallb (λ p, bool_decide (Participation.activity_id p
                                ∈ Activity.id <$> activity_table db)
                   && bool_decide (Participation.user_id p
                                   ∈ User.id <$> user_table db))
       (participation_table db).

(** No activity with a positive capacity holds more participations than
    that capacity. *)
Definition capacity_ok (db : Database) : Prop :=
  ∀ a, a ∈ activity_table db → 0 < Activity.max_participants a →
       Z.of_nat (length (participations_of (Activity.id a) db))
       ≤ Activity.max_participants a.

(** The user row a signup works with, and the database once that row is
    stored: the first row carrying the email, or a new row appended to the
    table. *)
Definition new_user (email : string) (db : Database) : User.t :=
  User.mk (next_id (User.id <$> user_table db)) email.

Definition with_user (email : string) (db : Database) : User.t * Database :=
  match head (users_with_email email db) with
  | Some user => (user, db)
  | None =>
      (new_user email db,
       mkDatabase (activity_table db) (user_table db ++ [new_user email db])
         (participation_table db))
  end.

Definition new_participation (activity_id user_id : Z) (db : Database) : Participation.t :=
  Participation.mk (next_id (Participation.id <$> participation_table db))
    activity_id user_id.

(** The capacity test of [signup_for_activity]. *)
Definition is_full (activity : Activity.t) (db : Database) : bool :=
  bool_decide (Activity.max_participants activity ≠ 0)
  && bool_decide (Activity.max_participants activity
                  ≤ Z.of_nat (length (participations_of (Activity.id activity) db))).

(** The rows that seeding writes into an empty activity table. *)
Definition seed_rows : list Activity.t :=
  imap (λ i a, Activity.mk (Z.of_nat i + 1) (seed_name a)
                 (Some (seed_description a)) (Some (seed_schedule a))
                 (seed_max_participants a))
    initial.

Definition not_found : HTTPException := mkHTTPException 404 "Activity not found".
Definition already_signed_up : HTTPException :=
  mkHTTPException 400 "Student is already signed up".
Definition activity_full : HTTPException := mkHTTPException 400 "Activity is full".
Definition not_signed_up : HTTPException :=
  mkHTTPException 400 "Student is not signed up for this activity".

Definition signed_up_message (email activity_name : string) : Message :=
  mkMessage ("Signed up " +:+ email +:+ " for " +:+ activity_name).
Definition unregistered_message (email activity_name : string) : Message :=
  mkMessage ("Unregistered " +:+ email +:+ " from " +:+ activity_name).

(** The database a successful signup of [email] for [activity] leaves. *)
Definition after_signup (activity : Activity.t) (email : string) (db : Database)
    : Database :=
  let '(user, db1) := with_user email db in
  mkDatabase (activity_table db1) (user_table db1)
    (participation_table db1
     ++ [new_participation (Activity.id activity) (User.id user) db1]).

(** The dictionary that [activities_as_dict] builds, as a function of the
    tables it reads. *)
Definition listing (db : Database) : gmap string ActivityInfo :=
  foldl (λ out activity,
           <[Activity.name activity :=
               mkInfo (Activity.description activity) (Activity.schedule activity)
                 (Activity.max_participants activity)
                 (participant_emails (Activity.id activity) db)]> out)
    ∅ (activity_table db).

(** ** Sample states *)

(** The database after the start-up code of [app.py] has run on a new file. *)
Definition seeded_db : Database := (seed_initial_activities_if_needed empty_db).2.

Definition math_club : Activity.t :=
  Activity.mk 8 "Math Club"
    (Some "Solve challenging problems and participate in math competitions")
    (Some "Tuesdays, 3:30 PM - 4:30 PM") 10.

Definition chess_club : Activity.t :=
  Activity.mk 1 "Chess Club"
    (Some "Learn strategies and compete in chess tournaments")
    (Some "Fridays, 3:30 PM - 5:00 PM") 12.

Definition ten_students : list string := [
  "s01@mergington.edu"; "s02@mergington.edu"; "s03@mergington.edu";
  "s04@mergington.edu"; "s05@mergington.edu"; "s06@mergington.edu";
  "s07@mergington.edu"; "s08@mergington.edu"; "s09@mergington.edu";
  "s10@mergington.edu"
].

(** The seeded database after ten students have signed up for the Math
    Club, which then holds as many participations as its capacity. *)
Definition math_club_full : Database :=
  serve_all (Signup "Math Club" <$> ten_students) seeded_db.

(** A database whose only activity was stored with the default
    [max_participants] of the [Activity] model. *)
Definition open_club : Activity.t := Activity.mk 1 "Open Club" None None 0.

Definition open_club_db : Database := mkDatabase [open_club] [] [].

(** ** Notions used for the listing and for enrollment *)

(** The value [activities_as_dict] stores for one activity row. *)
Definition entry (activity : Activity.t) (db : Database) : ActivityInfo :=
  mkInfo (Activity.description activity) (Activity.schedule activity)
    (Activity.max_participants activity)
    (participant_emails (Activity.id activity) db).

(** The (activity, user) pair a participation row stands for. *)
Definition pair_of (p : Participation.t) : Z * Z :=
  (Participation.activity_id p, Participation.user_id p).

(** No two user rows carry the same email, and no two participation rows
    stand for the same (activity, user) pair.  Neither is a constraint of
    the tables; the lookups that precede each insert in
    [signup_for_activity] are what keeps them. *)
Definition enrollment_ok (db : Database) : Prop :=
  NoDup (User.email <$> user_table db)
  ∧ NoDup (pair_of <$> participation_table db).

(** A database whose only activity was stored with a negative capacity,
    which the [int] column of the model admits. *)
Definition closed_club : Activity.t := Activity.mk 1 "Closed Club" None None (-1).

Definition closed_club_db : Database := mkDatabase [closed_club] [] [].

(** Closing a goal about concrete databases by running the model. *)
Ltac evaluate := vm_compute; first [reflexivity | exact I | done].

(** * Properties *)

(** ** Key allocation *)

Lemma foldr_max_ge (i : Z) (rest : list Z) (j : Z) :
  j ∈ i :: rest → j ≤ foldr Z.max i rest.
Proof.
  induction rest as [|k rest IH]; simpl.
  - intros ->%list_elem_of_singleton. lia.
  - rewrite !elem_of_cons. intros [->|[->|Hj]].
    + assert (i ≤ foldr Z.max i rest) by (apply IH; left). lia.
    + lia.
    + assert (j ≤ foldr Z.max i rest) by (apply IH; by right). lia.
Qed.

Lemma next_id_above (ids : list Z) (j : Z) : j ∈ ids → j < next_id ids.
Proof.
  destruct ids as [|i rest]; [by intros ?%elem_of_nil|].
  intros Hj%foldr_max_ge. simpl. lia.
Qed.

Lemma next_id_fresh (ids : list Z) : next_id ids ∉ ids.
Proof. intros H%next_id_above. lia. Qed.

(** ** What the endpoints compute *)

Lemma signup_run (activity_name email : string) (db : Database) :
  signup_for_activity activity_name email db =
  match head (activities_named activity_name db) with
  | None => (Raise not_found, db)
  | Some activity =>
      let '(user, db1) := with_user email db in
      match head (participations_of_pair (Activity.id activity) (User.id user) db1) with
      | Some _ => (Raise already_signed_up, db1)
      | None =>
          if is_full activity db1 then (Raise activity_full, db1)
          else (Return (signed_up_message email activity_name),
                mkDatabase (activity_table db1) (user_table db1)
                  (participation_table db1
                   ++ [new_participation (Activity.id activity) (User.id user) db1]))
      end
  end.
Proof.
  unfold signup_for_activity, with_session, signup_body, with_user, is_full.
  unfold mbind, tx_bind, exec, mret, tx_ret, raise; simpl.
  destruct (head (activities_named activity_name db)) as [a|]; [|done].
  simpl.
  destruct (head (users_with_email email db)) as [u|]; simpl.
  - destruct (head (participations_of_pair _ _ db)); [done|]; simpl.
    by destruct (_ && _).
  - destruct (head (participations_of_pair _ _ _)); [done|]; simpl.
    by destruct (_ && _).
Qed.

Lemma unregister_run (activity_name email : string) (db : Database) :
  unregister_from_activity activity_name email db =
  match head (activities_named activity_name db) with
  | None => (Raise not_found, db)
  | Some activity =>
      match head (users_with_email email db) with
      | None => (Raise not_signed_up, db)
      | Some user =>
          match head (participations_of_pair (Activity.id activity) (User.id user) db) with
          | None => (Raise not_signed_up, db)
          | Some p =>
              (Return (unregistered_message email activity_name),
               mkDatabase (activity_table db) (user_table db)
                 (filter (λ q, Participation.id q ≠ Participation.id p)
                    (participation_table db)))
          end
      end
  end.
Proof.
  unfold unregister_from_activity, with_session, unregister_body.
  unfold mbind, tx_bind, exec, mret, tx_ret, raise; simpl.
  destruct (head (activities_named activity_name db)) as [a|]; [|done].
  simpl.
  destruct (head (users_with_email email db)) as [u|]; [|done]; simpl.
  by destruct (head (participations_of_pair _ _ db)).
Qed.

(** ** Queries *)

Section queries.
Context {A : Type} (P : A → Prop) `{Pdec : !∀ x, Decision (P x)}.

Lemma first_Some (l : list A) (x : A) :
  head (filter P l) = Some x → x ∈ l ∧ P x.
Proof.
  intros H%head_Some_elem_of%list_elem_of_filter. tauto.
Qed.

Lemma first_None (l : list A) :
  head (filter P l) = None ↔ ∀ x, x ∈ l → ¬ P x.
Proof.
  rewrite head_None. split.
  - intros Hnil x Hx HP. by eapply filter_nil_not_elem_of.
  - intros Hall. induction l as [|y l IH]; [done|].
    rewrite filter_cons_False; [|apply Hall; left].
    apply IH. intros x Hx. apply Hall. by right.
Qed.

Lemma filter_none (l : list A) :
  (∀ x, x ∈ l → ¬ P x) → filter P l = [].
Proof. intros H. by apply head_None, first_None. Qed.

Lemma filter_all (l : list A) :
  (∀ x, x ∈ l → P x) → filter P l = l.
Proof.
  induction l as [|y l IH]; [done|]. intros H.
  rewrite filter_cons_True; [|apply H; left].
  f_equal. apply IH. intros x Hx. apply H. by right.
Qed.
End queries.

Lemma elem_of_participant_emails (e : string) (aid : Z) (db : Database) :
  e ∈ participant_emails aid db ↔
  ∃ p u, p ∈ participation_table db ∧ Participation.activity_id p = aid
         ∧ u ∈ user_table db ∧ User.id u = Participation.user_id p
         ∧ User.email u = e.
Proof.
  unfold participant_emails, participations_of.
  rewrite list_elem_of_bind. split.
  - intros (p & (u & He%list_elem_of_singleton & Hu%list_elem_of_filter)%list_elem_of_bind
              & Hp%list_elem_of_filter).
    exists p, u. destruct Hu, Hp. by subst.
  - intros (p & u & Hp & Ha & Hu & Hid & He).
    exists p. split; [|by apply list_elem_of_filter].
    apply list_elem_of_bind. exists u. split; [by apply list_elem_of_singleton|].
    by apply list_elem_of_filter.
Qed.

(** ** The user row of a signup *)

Lemma with_user_tables (e : string) (db : Database) :
  activity_table (with_user e db).2 = activity_table db
  ∧ participation_table (with_user e db).2 = participation_table db.
Proof. unfold with_user. by destruct (head _). Qed.

Lemma with_user_stored (e : string) (db : Database) :
  (with_user e db).1 ∈ user_table (with_user e db).2
  ∧ User.email (with_user e db).1 = e.
Proof.
  unfold with_user, users_with_email.
  destruct (head _) as [u|] eqn:Hu; simpl.
  - by apply first_Some in Hu.
  - split; [|done]. apply elem_of_app. right. by left.
Qed.

Lemma with_user_first (e : string) (db : Database) :
  head (users_with_email e (with_user e db).2) = Some (with_user e db).1.
Proof.
  unfold with_user.
  destruct (head (users_with_email e db)) as [u|] eqn:Hu; [done|]; simpl.
  unfold users_with_email in *; simpl.
  apply head_None in Hu. rewrite filter_app, Hu. simpl.
  by rewrite filter_cons_True.
Qed.

Lemma with_user_users (e : string) (db : Database) :
  (e ∈ User.email <$> user_table db ∧ (with_user e db).2 = db)
  ∨ ((e ∉ User.email <$> user_table db)
     ∧ (with_user e db).1 = new_user e db
     ∧ user_table (with_user e db).2 = user_table db ++ [new_user e db]).
Proof.
  unfold with_user, users_with_email.
  destruct (head _) as [u|] eqn:Hu; simpl.
  - left. apply first_Some in Hu as [Hu <-]. split; [|done].
    by apply list_elem_of_fmap_2.
  - right. split; [|done]. intros (u & -> & Hin)%list_elem_of_fmap.
    rewrite first_None in Hu. by eapply Hu.
Qed.

Lemma new_user_id_fresh (e : string) (db : Database) :
  User.id (new_user e db) ∉ User.id <$> user_table db.
Proof. apply next_id_fresh. Qed.

(** ** Schema constraints are kept *)

Lemma NoDup_ids_snoc {A : Type} (key : A → Z) (l : list A) (x : A) :
  NoDup (key <$> l) → key x = next_id (key <$> l) → NoDup (key <$> (l ++ [x])).
Proof.
  intros Hl Hx. rewrite fmap_app. apply NoDup_app. split; [done|]. split.
  - intros i Hi ->%list_elem_of_singleton. rewrite Hx in Hi.
    by apply next_id_fresh in Hi.
  - apply NoDup_singleton.
Qed.

Lemma empty_db_ok : store_ok empty_db.
Proof.
  split; simpl; try apply NoDup_nil_2; by intros p ?%elem_of_nil.
Qed.

Lemma with_user_ok (e : string) (db : Database) :
  store_ok db → store_ok (with_user e db).2.
Proof.
  intros [Ha Hu Hp Hfa Hfu]. unfold with_user.
  destruct (head _); [done|]. split; simpl; try done.
  - by apply NoDup_ids_snoc.
  - intros p Hin. rewrite fmap_app, elem_of_app. left. by apply Hfu.
Qed.

Lemma after_signup_ok (a : Activity.t) (e : string) (db : Database) :
  a ∈ activity_table db → store_ok db → store_ok (after_signup a e db).
Proof.
  intros Hin Hok. unfold after_signup.
  pose proof (with_user_ok e db Hok) as [Ha Hu Hp Hfa Hfu].
  pose proof (with_user_tables e db) as [Hacts _].
  pose proof (with_user_stored e db) as [Hstored _].
  destruct (with_user e db) as [u db1]; simpl in *.
  split; simpl; try done.
  - by apply NoDup_ids_snoc.
  - intros p [Hp'| ->%list_elem_of_singleton]%elem_of_app; [by apply Hfa|].
    simpl. rewrite Hacts. by apply list_elem_of_fmap_2.
  - intros p [Hp'| ->%list_elem_of_singleton]%elem_of_app; [by apply Hfu|].
    simpl. by apply list_elem_of_fmap_2.
Qed.

Lemma delete_ok (p : Participation.t) (db : Database) :
  store_ok db →
  store_ok (mkDatabase (activity_table db) (user_table db)
              (filter (λ q, Participation.id q ≠ Participation.id p)
                 (participation_table db))).
Proof.
  intros [Ha Hu Hp Hfa Hfu]. split; simpl; try done.
  - clear -Hp. induction (participation_table db) as [|q l IH]; [done|].
    rewrite fmap_cons in Hp. apply NoDup_cons in Hp as [Hq Hl].
    rewrite filter_cons. case_decide; [|by apply IH].
    rewrite fmap_cons. apply NoDup_cons. split; [|by apply IH].
    intros (q' & Heq & [_ Hin]%list_elem_of_filter)%list_elem_of_fmap.
    apply Hq. rewrite Heq. by apply list_elem_of_fmap_2.
  - intros q [_ Hq]%list_elem_of_filter. by apply Hfa.
  - intros q [_ Hq]%list_elem_of_filter. by apply Hfu.
Qed.

(** ** Signing up a student who is not enrolled *)

Lemma is_full_with_user (a : Activity.t) (e : string) (db : Database) :
  is_full a (with_user e db).2 = is_full a db.
Proof.
  unfold is_full, participations_of.
  by destruct (with_user_tables e db) as [_ ->].
Qed.

Lemma is_full_false (a : Activity.t) (db : Database) :
  is_full a db = false ↔
  Activity.max_participants a = 0
  ∨ Z.of_nat (length (participations_of (Activity.id a) db))
    < Activity.max_participants a.
Proof.
  unfold is_full. rewrite andb_false_iff, !bool_decide_eq_false. split.
  - intros [H|H]; [left|right]; [|lia].
    destruct (decide (Activity.max_participants a = 0)); [done|].
    by destruct H.
  - intros [H|H]; [left|right]; [|lia]. intros Hne. by apply Hne.
Qed.

Lemma is_full_true (a : Activity.t) (db : Database) :
  is_full a db = true ↔
  Activity.max_participants a ≠ 0
  ∧ Activity.max_participants a
    ≤ Z.of_nat (length (participations_of (Activity.id a) db)).
Proof.
  unfold is_full. by rewrite andb_true_iff, !bool_decide_eq_true.
Qed.

(** A student who does not appear among the participants has no
    participation row under the user row signup works with. *)
Lemma not_enrolled_no_pair (aid : Z) (e : string) (db : Database) :
  store_ok db → e ∉ participant_emails aid db →
  participations_of_pair aid (User.id (with_user e db).1) (with_user e db).2 = [].
Proof.
  intros Hok Hne. apply filter_none. intros p Hp [Ha Hu].
  destruct (with_user_tables e db) as [_ Hparts]. rewrite Hparts in Hp.
  destruct (with_user_users e db) as [[_ Hsame]|(_ & Hnew & _)].
  - apply Hne, elem_of_participant_emails.
    destruct (with_user_stored e db) as [Hin Hmail]. rewrite Hsame in Hin.
    by exists p, (with_user e db).1.
  - rewrite Hnew in Hu.
    apply (new_user_id_fresh e db). rewrite <- Hu. by apply (user_fk db).
Qed.

Lemma signup_succeeds (activity_name e : string) (a : Activity.t) (db : Database) :
  head (activities_named activity_name db) = Some a →
  store_ok db → e ∉ participant_emails (Activity.id a) db →
  is_full a db = false →
  signup_for_activity activity_name e db
  = (Return (signed_up_message e activity_name), after_signup a e db).
Proof.
  intros Ha Hok Hne Hfull. rewrite signup_run, Ha. unfold after_signup.
  pose proof (not_enrolled_no_pair _ _ _ Hok Hne) as Hpair.
  pose proof (is_full_with_user a e db) as Hfull'.
  destruct (with_user e db) as [u db1]; simpl in *.
  by rewrite Hpair, Hfull', Hfull.
Qed.

Lemma signup_full (activity_name e : string) (a : Activity.t) (db : Database) :
  head (activities_named activity_name db) = Some a →
  store_ok db → e ∉ participant_emails (Activity.id a) db →
  is_full a db = true →
  signup_for_activity activity_name e db
  = (Raise activity_full, (with_user e db).2).
Proof.
  intros Ha Hok Hne Hfull. rewrite signup_run, Ha.
  pose proof (not_enrolled_no_pair _ _ _ Hok Hne) as Hpair.
  pose proof (is_full_with_user a e db) as Hfull'.
  destruct (with_user e db) as [u db1]; simpl in *.
  by rewrite Hpair, Hfull', Hfull.
Qed.

Lemma check_store_ok (db : Database) : check_store db = true → store_ok db.
Proof.
  unfold check_store. rewrite !andb_true_iff, !bool_decide_eq_true.
  intros [[[Ha Hu] Hp] Hfk].
  assert (∀ p, p ∈ participation_table db →
            Participation.activity_id p ∈ Activity.id <$> activity_table db
            ∧ Participation.user_id p ∈ User.id <$> user_table db) as Hfk'.
  { intros p Hin. apply Is_true_true_2, forallb_True in Hfk.
    rewrite Forall_forall in Hfk. specialize (Hfk p Hin).
    apply Is_true_true_1 in Hfk.
    by rewrite andb_true_iff, !bool_decide_eq_true in Hfk. }
  split; try done; intros p Hin; by apply Hfk'.
Qed.

Lemma after_signup_tables (a : Activity.t) (e : string) (db : Database) :
  activity_table (after_signup a e db) = activity_table db
  ∧ user_table (after_signup a e db) = user_table (with_user e db).2
  ∧ participation_table (after_signup a e db)
    = participation_table db
      ++ [new_participation (Activity.id a) (User.id (with_user e db).1) db].
Proof.
  unfold after_signup, new_participation.
  destruct (with_user_tables e db) as [Hacts Hparts].
  destruct (with_user e db) as [u db1]; simpl in *.
  by rewrite Hacts, Hparts.
Qed.

Lemma after_signup_user (a : Activity.t) (e : string) (db : Database) :
  with_user e (after_signup a e db) = ((with_user e db).1, after_signup a e db).
Proof.
  destruct (after_signup_tables a e db) as (_ & Husers & _).
  pose proof (with_user_first e db) as Hfirst.
  unfold with_user at 1. unfold users_with_email in *.
  by rewrite Husers, Hfirst.
Qed.

Lemma after_signup_pair (a : Activity.t) (e : string) (db : Database) :
  store_ok db → e ∉ participant_emails (Activity.id a) db →
  head (participations_of_pair (Activity.id a) (User.id (with_user e db).1)
          (after_signup a e db))
  = Some (new_participation (Activity.id a) (User.id (with_user e db).1) db).
Proof.
  intros Hok Hne.
  destruct (after_signup_tables a e db) as (_ & _ & Hparts).
  pose proof (not_enrolled_no_pair _ _ _ Hok Hne) as Hnone.
  destruct (with_user_tables e db) as [_ Hsame].
  unfold participations_of_pair in *. rewrite Hsame in Hnone.
  rewrite Hparts, filter_app, Hnone. simpl.
  by rewrite filter_cons_True.
Qed.

Lemma activities_named_after_signup (n : string) (a : Activity.t) (e : string)
    (db : Database) :
  activities_named n (after_signup a e db) = activities_named n db.
Proof.
  unfold activities_named. by destruct (after_signup_tables a e db) as [-> _].
Qed.

(** ** Unknown activities *)

Lemma unknown_activity (activity_name : string) (db : Database) :
  activity_name ∉ Activity.name <$> activity_table db →
  head (activities_named activity_name db) = None.
Proof.
  intros Hno. apply first_None. intros a Hin Hname. apply Hno.
  rewrite <- Hname. by apply list_elem_of_fmap_2.
Qed.

(** C3: for an activity name that no stored Activity row carries, signup and
    unregister both fail with 404 "Activity not found", whatever the email,
    and the database (all three tables) is left as it was. *)
Theorem unknown_activity_not_found (activity_name email : string) (db : Database) :
  activity_name ∉ Activity.name <$> activity_table db →
  signup_for_activity activity_name email db
  = (Raise (mkHTTPException 404 "Activity not found"), db)
  ∧ unregister_from_activity activity_name email db
    = (Raise (mkHTTPException 404 "Activity not found"), db).
Proof.
  intros Hnone%unknown_activity.
  by rewrite signup_run, unregister_run, Hnone.
Qed.

(** ** Signing up twice *)

(** C2: for an activity found under its name, with spare capacity, and an
    email that is not among its participants, the first signup succeeds; a
    second signup with the same name and email fails with 400 "Student is
    already signed up" and leaves the database, hence the Participation rows,
    unchanged. *)
Theorem signup_twice (activity_name email : string) (a : Activity.t) (db : Database) :
  store_ok db →
  head (activities_named activity_name db) = Some a →
  Activity.max_participants a = 0
  ∨ Z.of_nat (length (participations_of (Activity.id a) db))
    < Activity.max_participants a →
  email ∉ participant_emails (Activity.id a) db →
  let first := signup_for_activity activity_name email db in
  let second := signup_for_activity activity_name email first.2 in
  first.1 = Return (mkMessage ("Signed up " +:+ email +:+ " for " +:+ activity_name))
  ∧ second.1 = Raise (mkHTTPException 400 "Student is already signed up")
  ∧ second.2 = first.2
  ∧ participation_table second.2 = participation_table first.2.
Proof.
  intros Hok Ha Hcap%is_full_false Hne. simpl.
  rewrite (signup_succeeds _ _ a) by done. simpl.
  rewrite signup_run, activities_named_after_signup, Ha, after_signup_user.
  by rewrite after_signup_pair.
Qed.

(** ** Participants before and after a signup *)

Lemma key_inj {A : Type} (key : A → Z) (l : list A) (x y : A) :
  NoDup (key <$> l) → x ∈ l → y ∈ l → key x = key y → x = y.
Proof.
  induction l as [|z l IH]; [by intros _ ?%elem_of_nil|].
  rewrite fmap_cons, NoDup_cons, !elem_of_cons.
  intros [Hz Hl] [->|Hx] [->|Hy] Hkey; try done.
  - destruct Hz. rewrite Hkey. by apply list_elem_of_fmap_2.
  - destruct Hz. rewrite <- Hkey. by apply list_elem_of_fmap_2.
  - by apply IH.
Qed.

Lemma participant_emails_with_user (aid : Z) (e e' : string) (db : Database) :
  store_ok db →
  e' ∈ participant_emails aid (with_user e db).2 → e' ∈ participant_emails aid db.
Proof.
  intros Hok. rewrite !elem_of_participant_emails.
  intros (p & u & Hp & Ha & Hu & Hid & He).
  destruct (with_user_tables e db) as [_ Hparts]. rewrite Hparts in Hp.
  exists p, u. repeat split; try done.
  destruct (with_user_users e db) as [[_ Hsame]|(_ & _ & Hnew)].
  - by rewrite Hsame in Hu.
  - rewrite Hnew in Hu. apply elem_of_app in Hu as [Hu|Hu%list_elem_of_singleton];
      [done|]. subst u.
    destruct (new_user_id_fresh e db). rewrite Hid. by apply (user_fk db).
Qed.

Lemma participant_emails_after_signup (a : Activity.t) (aid : Z) (e e' : string)
    (db : Database) :
  store_ok db →
  e' ∈ participant_emails aid (after_signup a e db) →
  e' ∈ participant_emails aid db ∨ (e' = e ∧ aid = Activity.id a).
Proof.
  intros Hok Hin.
  destruct (after_signup_tables a e db) as (_ & Husers & Hparts).
  apply elem_of_participant_emails in Hin as (p & u & Hp & Ha & Hu & Hid & He).
  rewrite Husers in Hu. rewrite Hparts in Hp.
  apply elem_of_app in Hp as [Hp|Hp%list_elem_of_singleton].
  - left. apply (participant_emails_with_user aid e), elem_of_participant_emails;
      [done|].
    destruct (with_user_tables e db) as [_ Hsame].
    exists p, u. by rewrite Hsame.
  - right. subst p; simpl in *. split; [|done].
    destruct (with_user_stored e db) as [Hstored Hmail].
    assert (u = (with_user e db).1) as ->; [|by rewrite <- He].
    eapply (key_inj User.id); [|done..]. by apply (user_pk _), with_user_ok.
Qed.

Lemma participations_of_after_signup (a : Activity.t) (aid : Z) (e : string)
    (db : Database) :
  participations_of aid (after_signup a e db)
  = participations_of aid db
    ++ (if decide (Activity.id a = aid)
        then [new_participation (Activity.id a) (User.id (with_user e db).1) db]
        else []).
Proof.
  unfold participations_of.
  destruct (after_signup_tables a e db) as (_ & _ & ->).
  rewrite filter_app, filter_cons. simpl.
  by repeat case_decide.
Qed.

(** ** Capacity *)

(** C1, as amended: for an activity found under its name whose
    max_participants is not zero, and an email that is not among its
    participants: when the activity holds max_participants Participation
    rows, signup fails with 400 "Activity is full" and adds no Participation;
    when it holds max_participants - 1, signup succeeds and appends exactly
    one Participation, for that activity and that email's user. *)
Theorem signup_at_capacity (activity_name email : string) (a : Activity.t)
    (db : Database) :
  store_ok db →
  head (activities_named activity_name db) = Some a →
  Activity.max_participants a ≠ 0 →
  email ∉ participant_emails (Activity.id a) db →
  let result := signup_for_activity activity_name email db in
  let count := Z.of_nat (length (participations_of (Activity.id a) db)) in
  (count = Activity.max_participants a →
     result.1 = Raise (mkHTTPException 400 "Activity is full")
     ∧ participation_table result.2 = participation_table db)
  ∧ (count = Activity.max_participants a - 1 →
       result.1
       = Return (mkMessage ("Signed up " +:+ email +:+ " for " +:+ activity_name))
       ∧ ∃ p, participation_table result.2 = participation_table db ++ [p]
              ∧ Participation.activity_id p = Activity.id a
              ∧ email ∈ participant_emails (Activity.id a) result.2).
Proof.
  intros Hok Ha Hmax Hne. simpl. split; intros Hcount.
  - rewrite (signup_full _ _ a); [|done..|apply is_full_true; lia]. simpl.
    split; [done|]. apply with_user_tables.
  - rewrite (signup_succeeds _ _ a); [|done..|apply is_full_false; lia]. simpl.
    split; [done|].
    destruct (after_signup_tables a email db) as (_ & Husers & Hparts).
    eexists. split; [exact Hparts|]. split; [done|].
    apply elem_of_participant_emails.
    destruct (with_user_stored email db) as [Hstored Hmail].
    eexists _, (with_user email db).1. rewrite Hparts, Husers.
    split; [apply elem_of_app; right; by left|]. done.
Qed.

(** C4: for an activity whose max_participants is 0, no signup fails with
    "Activity is full", however many signups follow one another; and any
    list of distinct emails that are not yet participants can be signed up,
    each signup succeeding and the participation count growing by one per
    email. *)
Theorem zero_capacity_is_unlimited (activity_name : string) (a : Activity.t)
    (emails : list string) (db : Database) :
  head (activities_named activity_name db) = Some a →
  Activity.max_participants a = 0 →
  Forall (λ r, r ≠ Raise (mkHTTPException 400 "Activity is full"))
    (signup_each activity_name emails db).1
  ∧ (store_ok db → NoDup emails →
     (∀ e, e ∈ emails → e ∉ participant_emails (Activity.id a) db) →
     (signup_each activity_name emails db).1
     = (λ e, Return (mkMessage ("Signed up " +:+ e +:+ " for " +:+ activity_name)))
       <$> emails
     ∧ length (participations_of (Activity.id a) (signup_each activity_name emails db).2)
       = (length (participations_of (Activity.id a) db) + length emails)%nat).
Proof.
  intros Ha Hzero. split.
  - revert db Ha. induction emails as [|e emails IH]; intros db Ha; simpl; [done|].
    pose proof (signup_run activity_name e db) as Hrun. rewrite Ha in Hrun.
    assert (∀ d, is_full a d = false) as Hfree
      by (intros d; apply is_full_false; by left).
    destruct (signup_for_activity activity_name e db) as [r db'] eqn:Hs.
    assert (r ≠ Raise activity_full
            ∧ head (activities_named activity_name db') = Some a) as [Hr Ha'].
    { pose proof (with_user_tables e db) as [Hacts _].
      destruct (with_user e db) as [u db1]; simpl in *.
      destruct (head (participations_of_pair _ _ db1)).
      - injection Hrun as -> ->. split; [done|].
        unfold activities_named in *. by rewrite Hacts.
      - rewrite Hfree in Hrun. injection Hrun as -> ->. split; [done|].
        unfold activities_named in *. simpl. by rewrite Hacts. }
    specialize (IH db' Ha').
    destruct (signup_each activity_name emails db') as [rs db'']; simpl in *.
    by constructor.
  - revert db Ha. induction emails as [|e emails IH];
      intros db Ha Hok Hdup Hnew; simpl; [by rewrite Nat.add_0_r|].
    apply NoDup_cons in Hdup as [He Hdup].
    rewrite (signup_succeeds _ _ a);
      [|done|done|apply Hnew; by left|apply is_full_false; by left].
    assert (a ∈ activity_table db) as Hin by (by apply first_Some in Ha as [? _]).
    specialize (IH (after_signup a e db)).
    destruct IH as [IHr IHn]; try done.
    { by rewrite activities_named_after_signup. }
    { by apply after_signup_ok. }
    { intros e' He' [Hold|[-> _]]%participant_emails_after_signup; [|done..].
      revert Hold. apply Hnew. by right. }
    destruct (signup_each activity_name emails (after_signup a e db)) as [rs db''].
    simpl in *. split; [by rewrite IHr|].
    rewrite IHn, participations_of_after_signup, decide_True by done.
    rewrite length_app. simpl. lia.
Qed.

(** ** Unregistering *)

Lemma delete_newest (aid uid : Z) (db : Database) :
  filter (λ q, Participation.id q ≠ Participation.id (new_participation aid uid db))
    (participation_table db ++ [new_participation aid uid db])
  = participation_table db.
Proof.
  rewrite filter_app, filter_cons_False by (intros H; by apply H).
  rewrite filter_nil, app_nil_r. apply filter_all.
  intros q Hq Heq. apply (next_id_fresh (Participation.id <$> participation_table db)).
  unfold new_participation in Heq; simpl in Heq. rewrite <- Heq.
  by apply list_elem_of_fmap_2.
Qed.

Lemma unregister_after_signup (activity_name e : string) (a : Activity.t)
    (db : Database) :
  store_ok db →
  head (activities_named activity_name db) = Some a →
  e ∉ participant_emails (Activity.id a) db →
  unregister_from_activity activity_name e (after_signup a e db)
  = (Return (unregistered_message e activity_name), (with_user e db).2).
Proof.
  intros Hok Ha Hne.
  rewrite unregister_run, activities_named_after_signup, Ha.
  destruct (after_signup_tables a e db) as (Hacts & Husers & Hparts).
  pose proof (with_user_first e db) as Hfirst.
  unfold users_with_email in *. rewrite Husers, Hfirst.
  rewrite after_signup_pair by done.
  rewrite Hacts, Hparts, delete_newest.
  destruct (with_user_tables e db) as [Hacts' Hparts'].
  destruct (with_user e db).2; simpl in *. by subst.
Qed.

(** C5: for an activity found under its name, with spare capacity, and an
    email that is not among its participants, signup, then unregister, then
    signup again all succeed; right after the unregister the email is not a
    participant of the activity, no user row with that email has a
    Participation for it, and the Participation table is what it was at the
    start. *)
Theorem signup_unregister_signup (activity_name email : string) (a : Activity.t)
    (db : Database) :
  store_ok db →
  head (activities_named activity_name db) = Some a →
  Activity.max_participants a = 0
  ∨ Z.of_nat (length (participations_of (Activity.id a) db))
    < Activity.max_participants a →
  email ∉ participant_emails (Activity.id a) db →
  let s1 := signup_for_activity activity_name email db in
  let s2 := unregister_from_activity activity_name email s1.2 in
  let s3 := signup_for_activity activity_name email s2.2 in
  s1.1 = Return (mkMessage ("Signed up " +:+ email +:+ " for " +:+ activity_name))
  ∧ s2.1 = Return (mkMessage ("Unregistered " +:+ email +:+ " from "
                              +:+ activity_name))
  ∧ s3.1 = Return (mkMessage ("Signed up " +:+ email +:+ " for " +:+ activity_name))
  ∧ (email ∉ participant_emails (Activity.id a) s2.2)
  ∧ (∀ u, u ∈ user_table s2.2 → User.email u = email →
          participations_of_pair (Activity.id a) (User.id u) s2.2 = [])
  ∧ participation_table s2.2 = participation_table db.
Proof.
  intros Hok Ha Hcap%is_full_false Hne. simpl.
  rewrite (signup_succeeds _ _ a) by done. simpl.
  rewrite (unregister_after_signup _ _ a) by done. simpl.
  assert (email ∉ participant_emails (Activity.id a) (with_user email db).2) as Hne'.
  { intros Hin. by apply Hne, (participant_emails_with_user _ email). }
  assert (head (activities_named activity_name (with_user email db).2) = Some a)
    as Ha'.
  { unfold activities_named in *. by destruct (with_user_tables email db) as [-> _]. }
  rewrite (signup_succeeds _ _ a);
    [|done|by apply with_user_ok|done|by rewrite is_full_with_user].
  repeat split; try done.
  - intros u Hu Hmail. apply filter_none. intros p Hp [Hpa Hpu].
    apply Hne', elem_of_participant_emails. by exists p, u.
  - apply with_user_tables.
Qed.

(** C7: for an activity found under its name, unregister fails with 400
    "Student is not signed up for this activity" both when no User row
    carries the email and when the User row found for the email has no
    Participation for the activity; in both cases the database is left as it
    was. *)
Theorem unregister_not_signed_up (activity_name email : string) (a : Activity.t)
    (db : Database) :
  head (activities_named activity_name db) = Some a →
  (email ∉ User.email <$> user_table db)
  ∨ (∃ u, head (users_with_email email db) = Some u
          ∧ ∀ p, p ∈ participation_table db →
                 ¬ (Participation.activity_id p = Activity.id a
                    ∧ Participation.user_id p = User.id u)) →
  unregister_from_activity activity_name email db
  = (Raise (mkHTTPException 400 "Student is not signed up for this activity"), db).
Proof.
  intros Ha Hcases. rewrite unregister_run, Ha.
  destruct Hcases as [Hnouser|(u & Hu & Hnone)].
  - destruct (with_user_users email db) as [[Hin _]|(_ & _ & _)]; [done|].
    assert (head (users_with_email email db) = None) as ->; [|done].
    apply first_None. intros u Hu Hmail. apply Hnouser.
    rewrite <- Hmail. by apply list_elem_of_fmap_2.
  - rewrite Hu.
    assert (head (participations_of_pair (Activity.id a) (User.id u) db) = None)
      as ->; [|done].
    by apply first_None.
Qed.

(** ** The user row written by a signup *)

(** C8: when no User row carries the email, signup for a known activity
    stores a new User row, and that row is in the database the request
    leaves behind whatever the outcome of the request; in particular, when
    the activity is full the request fails with 400 "Activity is full" and
    the database differs from the one before by exactly that User row. *)
Theorem new_user_survives_failed_signup (activity_name email : string)
    (a : Activity.t) (db : Database) :
  head (activities_named activity_name db) = Some a →
  (email ∉ User.email <$> user_table db) →
  let created := User.mk (next_id (User.id <$> user_table db)) email in
  user_table (signup_for_activity activity_name email db).2
  = user_table db ++ [created]
  ∧ (store_ok db →
     Activity.max_participants a ≠ 0 →
     Activity.max_participants a
     ≤ Z.of_nat (length (participations_of (Activity.id a) db)) →
     signup_for_activity activity_name email db
     = (Raise (mkHTTPException 400 "Activity is full"),
        mkDatabase (activity_table db) (user_table db ++ [created])
          (participation_table db))
     ∧ (signup_for_activity activity_name email db).2 ≠ db).
Proof.
  intros Ha Hnouser. simpl.
  destruct (with_user_users email db) as [[Hin _]|(_ & Hu & Husers)]; [done|].
  fold (new_user email db). split.
  - rewrite signup_run, Ha.
    destruct (with_user email db) as [u db1]; simpl in *.
    destruct (head (participations_of_pair _ _ db1)); [done|].
    by destruct (is_full a db1).
  - intros Hok Hmax Hcount.
    assert (email ∉ participant_emails (Activity.id a) db) as Hne.
    { intros (p & u & _ & _ & Hin & _ & Hmail)%elem_of_participant_emails.
      apply Hnouser. rewrite <- Hmail. by apply list_elem_of_fmap_2. }
    rewrite (signup_full _ _ a); [|done..|by apply is_full_true]. simpl.
    destruct (with_user_tables email db) as [Hacts Hparts].
    destruct (with_user email db).2 as [acts users parts]; simpl in *. subst.
    split; [done|].
    intros Heq. apply (f_equal user_table), (f_equal length) in Heq.
    simpl in Heq. rewrite length_app in Heq. simpl in Heq. lia.
Qed.

(** ** Which tables each operation touches *)

Lemma listing_run (db : Database) :
  activities_as_dict db = (Return (listing db), db).
Proof.
  unfold activities_as_dict, with_session, activities_as_dict_body, listing.
  unfold mbind, tx_bind, exec at 1; simpl.
  generalize (∅ : gmap string ActivityInfo).
  induction (activity_table db) as [|a l IH]; intros out; [done|].
  simpl. unfold mbind, tx_bind, exec; simpl.
  specialize (IH (<[Activity.name a :=
                      mkInfo (Activity.description a) (Activity.schedule a)
                        (Activity.max_participants a)
                        (participant_emails (Activity.id a) db)]> out)).
  by destruct (for_each l _ _ _) as [r s].
Qed.

Lemma signup_database (activity_name e : string) (db : Database) :
  (signup_for_activity activity_name e db).2 = db
  ∨ (signup_for_activity activity_name e db).2 = (with_user e db).2
  ∨ ∃ a, head (activities_named activity_name db) = Some a
         ∧ is_full a db = false
         ∧ (signup_for_activity activity_name e db).2 = after_signup a e db.
Proof.
  rewrite signup_run. destruct (head (activities_named _ _)) as [a|]; [|by left].
  unfold after_signup. pose proof (is_full_with_user a e db) as Hfull.
  destruct (with_user e db) as [u db1]; simpl in *.
  destruct (head (participations_of_pair _ _ db1)); [right; by left|].
  destruct (is_full a db1); [right; by left|].
  right; right. by exists a.
Qed.

Lemma signup_activities (activity_name e : string) (db : Database) :
  activity_table (signup_for_activity activity_name e db).2 = activity_table db.
Proof.
  destruct (signup_database activity_name e db) as [->|[->|(a & _ & _ & ->)]];
    [done|apply with_user_tables|apply after_signup_tables].
Qed.

Lemma unregister_tables (activity_name e : string) (db : Database) :
  activity_table (unregister_from_activity activity_name e db).2 = activity_table db
  ∧ user_table (unregister_from_activity activity_name e db).2 = user_table db.
Proof. rewrite unregister_run. by repeat case_match. Qed.

Lemma delete_one {A : Type} (key : A → Z) (l : list A) (x : A) :
  NoDup (key <$> l) → x ∈ l →
  ∃ l1 l2, l = l1 ++ x :: l2 ∧ filter (λ q, key q ≠ key x) l = l1 ++ l2.
Proof.
  intros Hdup (l1 & l2 & ->)%list_elem_of_split. exists l1, l2. split; [done|].
  rewrite filter_app, filter_cons_False by (intros H; by apply H).
  rewrite fmap_app, fmap_cons in Hdup.
  apply NoDup_app in Hdup as (_ & Hl1 & [Hl2 _]%NoDup_cons).
  f_equal; apply filter_all; intros q Hq Heq.
  - apply (Hl1 (key q)); [by apply list_elem_of_fmap_2|]. rewrite Heq. by left.
  - apply Hl2. rewrite <- Heq. by apply list_elem_of_fmap_2.
Qed.

(** C9: signup and unregister leave the Activity table as it was; unregister
    leaves the User table as it was, and either fails and changes nothing or
    succeeds and removes the Participation row with the key of one stored
    row, which under unique keys is that one row and no other; the listing
    returns its dictionary and leaves the whole database as it was. *)
Theorem operations_frame (activity_name email : string) (db : Database) :
  let signed := signup_for_activity activity_name email db in
  let unregistered := unregister_from_activity activity_name email db in
  activity_table signed.2 = activity_table db
  ∧ activity_table unregistered.2 = activity_table db
  ∧ user_table unregistered.2 = user_table db
  ∧ (∀ exc, unregistered.1 = Raise exc → unregistered.2 = db)
  ∧ (∀ m, unregistered.1 = Return m →
       ∃ p, p ∈ participation_table db
            ∧ participation_table unregistered.2
              = filter (λ q, Participation.id q ≠ Participation.id p)
                  (participation_table db)
            ∧ (NoDup (Participation.id <$> participation_table db) →
               ∃ l1 l2, participation_table db = l1 ++ p :: l2
                        ∧ participation_table unregistered.2 = l1 ++ l2))
  ∧ get_activities db = (Return (listing db), db).
Proof.
  simpl. split; [|split; [|split; [|split; [|split]]]].
  - apply signup_activities.
  - apply unregister_tables.
  - apply unregister_tables.
  - intros exc. rewrite unregister_run. by repeat case_match.
  - intros m. rewrite unregister_run.
    destruct (head (activities_named _ _)) as [a|]; [|done].
    destruct (head (users_with_email _ _)) as [u|]; [|done].
    destruct (head (participations_of_pair _ _ _)) as [p|] eqn:Hp; [|done].
    intros _. simpl. apply first_Some in Hp as [Hin _].
    exists p. split; [done|]. split; [done|].
    intros Hdup. destruct (delete_one Participation.id _ p Hdup Hin)
      as (l1 & l2 & Hsplit & Hdel).
    exists l1, l2. by rewrite Hdel.
  - apply listing_run.
Qed.

(** ** The capacity bound along a run *)

Lemma count_after_delete (aid : Z) (p : Participation.t) (db : Database) :
  (length (participations_of aid
             (mkDatabase (activity_table db) (user_table db)
                (filter (λ q, Participation.id q ≠ Participation.id p)
                   (participation_table db))))
   ≤ length (participations_of aid db))%nat.
Proof.
  unfold participations_of; simpl.
  induction (participation_table db) as [|q l IH]; [done|].
  rewrite !filter_cons. repeat case_decide; simpl; rewrite ?filter_cons;
    repeat case_decide; simpl; try done; lia.
Qed.

Lemma signup_keeps_capacity (activity_name e : string) (db : Database) :
  NoDup (Activity.id <$> activity_table db) →
  capacity_ok db → capacity_ok (signup_for_activity activity_name e db).2.
Proof.
  intros Hdup Hcap.
  destruct (signup_database activity_name e db)
    as [->|[->|(a & Ha & Hfull & ->)]]; [done| |].
  - destruct (with_user_tables e db) as [Hacts Hparts].
    intros a'. unfold participations_of. rewrite Hacts, Hparts. apply Hcap.
  - intros a' Hin Hpos.
    destruct (after_signup_tables a e db) as (Hacts & _ & _).
    rewrite Hacts in Hin. rewrite participations_of_after_signup.
    specialize (Hcap a' Hin Hpos). case_decide as Hid.
    + apply first_Some in Ha as [Hain _].
      assert (a = a') as -> by (by eapply (key_inj Activity.id)).
      apply is_full_false in Hfull. rewrite length_app. simpl. lia.
    + by rewrite app_nil_r.
Qed.

Lemma unregister_keeps_capacity (activity_name e : string) (db : Database) :
  capacity_ok db → capacity_ok (unregister_from_activity activity_name e db).2.
Proof.
  intros Hcap. rewrite unregister_run. repeat case_match; try done.
  intros a' Hin Hpos. specialize (Hcap a' Hin Hpos).
  etrans; [|exact Hcap]. apply inj_le, count_after_delete.
Qed.

Lemma serve_activities (db : Database) (r : Request) :
  activity_table (serve db r) = activity_table db.
Proof.
  destruct r as [n e|n e]; [apply signup_activities|apply unregister_tables].
Qed.

Lemma serve_keeps_capacity (db : Database) (r : Request) :
  NoDup (Activity.id <$> activity_table db) →
  capacity_ok db → capacity_ok (serve db r).
Proof.
  destruct r as [n e|n e]; simpl; intros Hdup Hcap;
    [by apply signup_keeps_capacity|by apply unregister_keeps_capacity].
Qed.

(** C10: from any database with unique Activity keys in which every activity
    with a positive max_participants holds at most that many Participation
    rows, every sequence of signup and unregister requests served one after
    the other leads to a database with the same property: no activity with a
    positive capacity ever holds more participations than its capacity. *)
Theorem capacity_invariant (db : Database) (requests : list Request) :
  NoDup (Activity.id <$> activity_table db) →
  (∀ a, a ∈ activity_table db → 0 < Activity.max_participants a →
        Z.of_nat (length (participations_of (Activity.id a) db))
        ≤ Activity.max_participants a) →
  ∀ a, a ∈ activity_table (serve_all requests db) →
       0 < Activity.max_participants a →
       Z.of_nat (length (participations_of (Activity.id a) (serve_all requests db)))
       ≤ Activity.max_participants a.
Proof.
  intros Hdup Hcap. fold (capacity_ok db) in Hcap.
  fold (capacity_ok (serve_all requests db)).
  revert db Hdup Hcap. unfold serve_all.
  induction requests as [|r rs IH]; intros db Hdup Hcap; [done|]. simpl.
  apply IH; [by rewrite serve_activities|by apply serve_keeps_capacity].
Qed.

(** ** Seeding *)

Lemma seed_on_empty (db : Database) :
  activity_table db = [] →
  seed_initial_activities_if_needed db
  = (Return (), mkDatabase seed_rows (user_table db) (participation_table db)).
Proof. destruct db as [acts users parts]; simpl. by intros ->. Qed.

Lemma seed_on_nonempty (db : Database) :
  activity_table db ≠ [] → seed_initial_activities_if_needed db = (Return (), db).
Proof.
  destruct db as [[|a acts] users parts]; simpl; [done|]. by intros _.
Qed.

Lemma seed_ok (db : Database) :
  store_ok db → store_ok (seed_initial_activities_if_needed db).2.
Proof.
  intros Hok. destruct (decide (activity_table db = [])) as [Hnil|Hne];
    [|by rewrite seed_on_nonempty].
  rewrite seed_on_empty by done. destruct Hok as [Ha Hu Hp Hfa Hfu].
  split; simpl; try done.
  - apply (bool_decide_unpack _). by vm_compute.
  - intros p Hin. specialize (Hfa p Hin). rewrite Hnil in Hfa.
    by apply elem_of_nil in Hfa.
Qed.

(** C6: on a database without Activity rows, seeding writes exactly the nine
    seed activities, with keys 1 to 9 and the name, description, schedule
    and capacity of the seed list, and touches no other table, so that none
    of them has a participant; on a database with at least one Activity row
    it changes nothing; seeding a second time changes nothing. *)
Theorem seed_if_empty (db : Database) :
  (activity_table db = [] →
   seed_initial_activities_if_needed db
   = (Return (), mkDatabase seed_rows (user_table db) (participation_table db)))
  ∧ length seed_rows = 9%nat
  ∧ Activity.name <$> seed_rows
    = ["Chess Club"; "Programming Class"; "Gym Class"; "Soccer Team";
       "Basketball Team"; "Art Club"; "Drama Club"; "Math Club"; "Debate Team"]
  ∧ (store_ok db → activity_table db = [] →
     ∀ a, a ∈ seed_rows →
          participant_emails (Activity.id a)
            (seed_initial_activities_if_needed db).2 = [])
  ∧ (activity_table db ≠ [] →
     seed_initial_activities_if_needed db = (Return (), db))
  ∧ seed_initial_activities_if_needed (seed_initial_activities_if_needed db).2
    = (Return (), (seed_initial_activities_if_needed db).2).
Proof.
  split; [apply seed_on_empty|]. split; [done|]. split; [done|].
  split; [|split; [apply seed_on_nonempty|]].
  - intros Hok Hnil a _. rewrite seed_on_empty by done.
    unfold participant_emails, participations_of; simpl.
    assert (participation_table db = []) as ->; [|done].
    destruct (participation_table db) as [|p l] eqn:Hp; [done|].
    assert (p ∈ participation_table db) as Hin by (rewrite Hp; left).
    apply (activity_fk db Hok) in Hin. rewrite Hnil in Hin.
    by apply elem_of_nil in Hin.
  - destruct (decide (activity_table db = [])) as [Hnil|Hne].
    + rewrite (seed_on_empty db) by done. by apply seed_on_nonempty.
    + rewrite (seed_on_nonempty db) by done. by apply seed_on_nonempty.
Qed.

(** ** Every state the program reaches meets the schema constraints *)

Lemma serve_ok (db : Database) (r : Request) : store_ok db → store_ok (serve db r).
Proof.
  intros Hok. destruct r as [n e|n e]; simpl.
  - destruct (signup_database n e db) as [->|[->|(a & Ha & _ & ->)]];
      [done|by apply with_user_ok|].
    apply after_signup_ok; [|done]. by apply first_Some in Ha as [? _].
  - rewrite unregister_run. repeat case_match; try done. by apply delete_ok.
Qed.

Lemma serve_all_ok (rs : list Request) (db : Database) :
  store_ok db → store_ok (serve_all rs db).
Proof.
  revert db. unfold serve_all.
  induction rs as [|r rs IH]; intros db Hok; [done|].
  simpl. by apply IH, serve_ok.
Qed.

Lemma seeded_db_ok : store_ok seeded_db.
Proof. apply seed_ok, empty_db_ok. Qed.

Lemma math_club_full_ok : store_ok math_club_full.
Proof. apply serve_all_ok, seeded_db_ok. Qed.

(** ** Lookup by name under unique names *)

Lemma unique_name_lookup (a : Activity.t) (db : Database) :
  NoDup (Activity.name <$> activity_table db) → a ∈ activity_table db →
  head (activities_named (Activity.name a) db) = Some a.
Proof.
  unfold activities_named.
  induction (activity_table db) as [|x l IH]; [by intros _ ?%elem_of_nil|].
  rewrite fmap_cons, NoDup_cons, elem_of_cons. intros [Hx Hl] [->|Hin].
  - by rewrite filter_cons_True.
  - rewrite filter_cons_False; [by apply IH|].
    intros Heq. apply Hx. rewrite Heq. by apply list_elem_of_fmap_2.
Qed.

Lemma serve_all_activities (rs : list Request) (db : Database) :
  activity_table (serve_all rs db) = activity_table db.
Proof.
  revert db. unfold serve_all.
  induction rs as [|r rs IH]; intros db; [done|].
  simpl. by rewrite IH, serve_activities.
Qed.

(** ** Concrete runs *)

(** The scenario of the specification: seed, sign up, list, sign up again,
    unregister, list. *)
Example chess_club_scenario :
  let s1 := signup_for_activity "Chess Club" "a@x.com" seeded_db in
  let s2 := signup_for_activity "Chess Club" "a@x.com" s1.2 in
  let s3 := unregister_from_activity "Chess Club" "a@x.com" s2.2 in
  s1.1 = Return (mkMessage "Signed up a@x.com for Chess Club")
  ∧ info_participants <$> listing s1.2 !! "Chess Club" = Some ["a@x.com"]
  ∧ s2.1 = Raise (mkHTTPException 400 "Student is already signed up")
  ∧ s3.1 = Return (mkMessage "Unregistered a@x.com from Chess Club")
  ∧ info_participants <$> listing s3.2 !! "Chess Club" = Some [].
Proof. repeat split; evaluate. Qed.

(** C1, as stated, fails: in the seeded database with ten students signed up
    for the Math Club (capacity 10), a signup of one of these ten is
    answered with "Student is already signed up", not "Activity is full". *)
Lemma signup_at_capacity_counterexample :
  head (activities_named "Math Club" math_club_full) = Some math_club
  ∧ Activity.max_participants math_club ≠ 0
  ∧ Z.of_nat (length (participations_of (Activity.id math_club) math_club_full))
    = Activity.max_participants math_club
  ∧ (signup_for_activity "Math Club" "s01@mergington.edu" math_club_full).1
    = Raise (mkHTTPException 400 "Student is already signed up")
  ∧ (signup_for_activity "Math Club" "s01@mergington.edu" math_club_full).1
    ≠ Raise (mkHTTPException 400 "Activity is full").
Proof. repeat split; evaluate. Qed.

(** A late student at the full Math Club is turned away. *)
Lemma signup_at_capacity_witness :
  (signup_for_activity "Math Club" "late@mergington.edu" math_club_full).1
  = Raise (mkHTTPException 400 "Activity is full")
  ∧ participation_table
      (signup_for_activity "Math Club" "late@mergington.edu" math_club_full).2
    = participation_table math_club_full.
Proof.
  apply (signup_at_capacity "Math Club" "late@mergington.edu" math_club
           math_club_full).
  - apply check_store_ok. evaluate.
  - evaluate.
  - evaluate.
  - apply (bool_decide_unpack _). evaluate.
  - evaluate.
Defined.

(** Signing the same student up for the Chess Club twice. *)
Lemma signup_twice_witness :
  let first := signup_for_activity "Chess Club" "a@x.com" seeded_db in
  let second := signup_for_activity "Chess Club" "a@x.com" first.2 in
  first.1 = Return (mkMessage ("Signed up " +:+ "a@x.com" +:+ " for " +:+ "Chess Club"))
  ∧ second.1 = Raise (mkHTTPException 400 "Student is already signed up")
  ∧ second.2 = first.2
  ∧ participation_table second.2 = participation_table first.2.
Proof.
  apply (signup_twice "Chess Club" "a@x.com" chess_club seeded_db).
  - apply check_store_ok. evaluate.
  - evaluate.
  - right. evaluate.
  - apply (bool_decide_unpack _). evaluate.
Defined.

(** No seed activity is called Knitting Circle. *)
Lemma unknown_activity_not_found_witness :
  signup_for_activity "Knitting Circle" "a@x.com" seeded_db
  = (Raise (mkHTTPException 404 "Activity not found"), seeded_db)
  ∧ unregister_from_activity "Knitting Circle" "a@x.com" seeded_db
    = (Raise (mkHTTPException 404 "Activity not found"), seeded_db).
Proof.
  apply (unknown_activity_not_found "Knitting Circle" "a@x.com" seeded_db).
  apply (bool_decide_unpack _). evaluate.
Defined.

(** Ten students join a club stored without a capacity. *)
Lemma zero_capacity_is_unlimited_witness :
  Forall (λ r, r ≠ Raise (mkHTTPException 400 "Activity is full"))
    (signup_each "Open Club" ten_students open_club_db).1
  ∧ length (participations_of 1 (signup_each "Open Club" ten_students open_club_db).2)
    = 10%nat.
Proof.
  destruct (zero_capacity_is_unlimited "Open Club" open_club ten_students
              open_club_db) as [Hnever Hall].
  - evaluate.
  - evaluate.
  - split; [exact Hnever|]. apply Hall.
    + apply check_store_ok. evaluate.
    + apply (bool_decide_unpack _). evaluate.
    + intros e _. apply (bool_decide_unpack _). evaluate.
Defined.

(** One student joins, leaves and rejoins the Chess Club. *)
Lemma signup_unregister_signup_witness :
  let s1 := signup_for_activity "Chess Club" "a@x.com" seeded_db in
  let s2 := unregister_from_activity "Chess Club" "a@x.com" s1.2 in
  let s3 := signup_for_activity "Chess Club" "a@x.com" s2.2 in
  s1.1 = Return (mkMessage "Signed up a@x.com for Chess Club")
  ∧ s2.1 = Return (mkMessage "Unregistered a@x.com from Chess Club")
  ∧ s3.1 = Return (mkMessage "Signed up a@x.com for Chess Club")
  ∧ participation_table s2.2 = participation_table seeded_db.
Proof.
  destruct (signup_unregister_signup "Chess Club" "a@x.com" chess_club seeded_db)
    as (H1 & H2 & H3 & _ & _ & H6).
  - apply check_store_ok. evaluate.
  - evaluate.
  - right. evaluate.
  - apply (bool_decide_unpack _). evaluate.
  - exact (conj H1 (conj H2 (conj H3 H6))).
Defined.

(** Unregistering an email the seeded database has never seen. *)
Lemma unregister_not_signed_up_witness :
  unregister_from_activity "Chess Club" "nobody@x.com" seeded_db
  = (Raise (mkHTTPException 400 "Student is not signed up for this activity"),
     seeded_db).
Proof.
  apply (unregister_not_signed_up "Chess Club" "nobody@x.com" chess_club seeded_db).
  - evaluate.
  - left. apply (bool_decide_unpack _). evaluate.
Defined.

(** The late student of the full Math Club is stored as user 11 all the same. *)
Lemma new_user_survives_failed_signup_witness :
  signup_for_activity "Math Club" "late@mergington.edu" math_club_full
  = (Raise (mkHTTPException 400 "Activity is full"),
     mkDatabase (activity_table math_club_full)
       (user_table math_club_full ++ [User.mk 11 "late@mergington.edu"])
       (participation_table math_club_full)).
Proof.
  destruct (new_user_survives_failed_signup "Math Club" "late@mergington.edu"
              math_club math_club_full) as [_ Hfull].
  - evaluate.
  - apply (bool_decide_unpack _). evaluate.
  - apply Hfull.
    + apply check_store_ok. evaluate.
    + evaluate.
    + evaluate.
Defined.

(** Unregistering the third Math Club student removes one row. *)
Lemma operations_frame_witness :
  ∃ p, participation_table
         (unregister_from_activity "Math Club" "s03@mergington.edu" math_club_full).2
       = filter (λ q, Participation.id q ≠ Participation.id p)
           (participation_table math_club_full)
       ∧ ∃ l1 l2, participation_table math_club_full = l1 ++ p :: l2
                  ∧ participation_table
                      (unregister_from_activity "Math Club" "s03@mergington.edu"
                         math_club_full).2 = l1 ++ l2.
Proof.
  destruct (operations_frame "Math Club" "s03@mergington.edu" math_club_full)
    as (_ & _ & _ & _ & Hdel & _).
  destruct (Hdel (mkMessage "Unregistered s03@mergington.edu from Math Club"))
    as (p & _ & Hfilter & Hone); [evaluate|].
  exists p. split; [exact Hfilter|]. apply Hone.
  apply (bool_decide_unpack _). evaluate.
Defined.

(** Eleven signups for the Math Club leave it within its capacity of ten. *)
Lemma capacity_invariant_witness :
  Z.of_nat (length (participations_of (Activity.id math_club)
                      (serve_all (Signup "Math Club"
                                  <$> "late@mergington.edu" :: ten_students)
                         seeded_db)))
  ≤ Activity.max_participants math_club.
Proof.
  apply (capacity_invariant seeded_db
           (Signup "Math Club" <$> "late@mergington.edu" :: ten_students)).
  - apply (bool_decide_unpack _). evaluate.
  - intros a _ Hpos. change (0 ≤ Activity.max_participants a). lia.
  - apply (bool_decide_unpack _). evaluate.
  - evaluate.
Defined.

(** Seeding the empty database, and seeding it again. *)
Lemma seed_if_empty_witness :
  seed_initial_activities_if_needed empty_db = (Return (), seeded_db)
  ∧ seed_initial_activities_if_needed seeded_db = (Return (), seeded_db)
  ∧ participant_emails (Activity.id chess_club) seeded_db = [].
Proof.
  destruct (seed_if_empty empty_db) as (Hempty & _ & _ & Hnone & _ & Htwice).
  split; [|split].
  - rewrite Hempty by evaluate. evaluate.
  - exact Htwice.
  - apply Hnone; [apply check_store_ok; evaluate|evaluate|].
    apply (bool_decide_unpack _). evaluate.
Defined.

(** * Further properties of the two layers *)

(** ** The listing, entry by entry *)

Lemma listing_lookup_last (n : string) (db : Database) :
  listing db !! n = (λ a, entry a db) <$> last (activities_named n db).
Proof.
  unfold listing, activities_named.
  assert (∀ (l : list Activity.t) (out : gmap string ActivityInfo),
            foldl (λ out activity, <[Activity.name activity := entry activity db]> out)
              out l !! n
            = match last (filter (λ a, Activity.name a = n) l) with
              | Some a => Some (entry a db)
              | None => out !! n
              end) as Hfold.
  { induction l as [|x l IH]; intros out; [done|]. simpl. rewrite IH.
    rewrite filter_cons. case_decide as Hx.
    - rewrite last_cons. destruct (last (filter _ l)); [done|].
      by rewrite <- Hx, lookup_insert_eq.
    - destruct (last (filter _ l)); [done|]. by rewrite lookup_insert_ne. }
  unfold entry in Hfold. rewrite Hfold.
  destruct (last _); [done|]. by rewrite lookup_empty.
Qed.

(** X1: the listing always returns a dictionary.  It has an entry under a
    name exactly when some Activity row carries that name; the entry holds
    the description, schedule and capacity of the last such row (a later row
    overwrites an earlier one in the dictionary) and the emails joined to
    that row's key. *)
Theorem listing_lookup (n : string) (db : Database) :
  ∃ out, (activities_as_dict db).1 = Return out
    ∧ out !! n
      = (λ a, mkInfo (Activity.description a) (Activity.schedule a)
                (Activity.max_participants a)
                (participant_emails (Activity.id a) db))
        <$> last (activities_named n db)
    ∧ (out !! n = None ↔ n ∉ Activity.name <$> activity_table db).
Proof.
  exists (listing db). rewrite listing_run. split; [done|].
  pose proof (listing_lookup_last n db) as Hlast. unfold entry in Hlast.
  split; [done|]. rewrite Hlast, fmap_None, last_None. unfold activities_named.
  split.
  - intros Hnil (a & -> & Hin)%list_elem_of_fmap.
    by eapply (filter_nil_not_elem_of _ _ a Hnil).
  - intros Hno. apply filter_none. intros a Hin Hname. apply Hno.
    rewrite <- Hname. by apply list_elem_of_fmap_2.
Qed.

(** ** One email per user, one participation per pair *)

Lemma NoDup_fmap_filter {A K : Type} (f : A → K) (P : A → Prop)
    `{Pd : !∀ x, Decision (P x)} (l : list A) :
  NoDup (f <$> l) → NoDup (f <$> filter P l).
Proof.
  intros Hdup. eapply sublist_NoDup; [exact Hdup|].
  apply fmap_sublist, sublist_filter.
Qed.

Lemma field_inj {A K : Type} (f : A → K) (l : list A) (x y : A) :
  NoDup (f <$> l) → x ∈ l → y ∈ l → f x = f y → x = y.
Proof.
  induction l as [|z l IH]; [by intros _ ?%elem_of_nil|].
  rewrite fmap_cons, NoDup_cons, !elem_of_cons.
  intros [Hz Hl] [->|Hx] [->|Hy] Hf; try done.
  - destruct Hz. rewrite Hf. by apply list_elem_of_fmap_2.
  - destruct Hz. rewrite <- Hf. by apply list_elem_of_fmap_2.
  - by apply IH.
Qed.

Lemma with_user_emails (e : string) (db : Database) :
  NoDup (User.email <$> user_table db) →
  NoDup (User.email <$> user_table (with_user e db).2).
Proof.
  intros Hdup. destruct (with_user_users e db) as [[_ ->]|(Hnew & _ & ->)]; [done|].
  rewrite fmap_app. apply NoDup_app. split; [done|]. split.
  - intros x Hx ->%list_elem_of_singleton. by apply Hnew.
  - apply NoDup_singleton.
Qed.

(** What a signup leaves, with the facts each branch has established. *)
Lemma signup_branches (activity_name e : string) (db : Database) :
  (signup_for_activity activity_name e db).2 = (with_user e db).2
  ∨ (signup_for_activity activity_name e db).2 = db
  ∨ ∃ a, head (activities_named activity_name db) = Some a
         ∧ participations_of_pair (Activity.id a) (User.id (with_user e db).1)
             (with_user e db).2 = []
         ∧ is_full a db = false
         ∧ (signup_for_activity activity_name e db).2 = after_signup a e db.
Proof.
  rewrite signup_run. destruct (head (activities_named _ _)) as [a|]; [|right; by left].
  unfold after_signup. pose proof (is_full_with_user a e db) as Hfull.
  destruct (with_user e db) as [u db1]; simpl in *.
  destruct (head (participations_of_pair _ _ db1)) eqn:Hpair; [by left|].
  destruct (is_full a db1); [by left|].
  right; right. exists a. by apply head_None in Hpair.
Qed.

Lemma signup_keeps_enrollment (activity_name e : string) (db : Database) :
  enrollment_ok db → enrollment_ok (signup_for_activity activity_name e db).2.
Proof.
  intros [Hmail Hpair].
  assert (enrollment_ok (with_user e db).2) as Hwith.
  { split; [by apply with_user_emails|].
    by destruct (with_user_tables e db) as [_ ->]. }
  destruct (signup_branches activity_name e db)
    as [->|[->|(a & _ & Hnone & _ & ->)]]; [done|done|].
  unfold enrollment_ok.
  destruct (after_signup_tables a e db) as (_ & -> & ->).
  split; [apply Hwith|].
  rewrite fmap_app. apply NoDup_app. split; [done|]. split; [|apply NoDup_singleton].
  intros x (p & -> & Hp)%list_elem_of_fmap Hx%list_elem_of_singleton.
  destruct (with_user_tables e db) as [_ Hparts].
  unfold participations_of_pair in Hnone. rewrite Hparts in Hnone.
  apply (filter_nil_not_elem_of _ _ p Hnone); [|done].
  unfold pair_of, new_participation in Hx. simpl in Hx. by injection Hx.
Qed.

Lemma unregister_keeps_enrollment (activity_name e : string) (db : Database) :
  enrollment_ok db → enrollment_ok (unregister_from_activity activity_name e db).2.
Proof.
  intros [Hmail Hpair]. rewrite unregister_run. repeat case_match; try done.
  split; [done|]. simpl. by apply NoDup_fmap_filter.
Qed.

Lemma serve_all_keeps_enrollment (rs : list Request) (db : Database) :
  enrollment_ok db → enrollment_ok (serve_all rs db).
Proof.
  revert db. unfold serve_all.
  induction rs as [|r rs IH]; intros db Hok; [done|]. simpl. apply IH.
  destruct r as [n e|n e];
    [by apply signup_keeps_enrollment|by apply unregister_keeps_enrollment].
Qed.

(** X2: served one after the other, signup and unregister requests never
    produce a second User row for an email nor a second Participation row
    for an (activity, user) pair: from a database without such duplicates,
    every sequence of requests leads to one without them.  No constraint of
    the tables is needed for this. *)
Theorem no_duplicate_enrollment (requests : list Request) (db : Database) :
  NoDup (User.email <$> user_table db) →
  NoDup (pair_of <$> participation_table db) →
  NoDup (User.email <$> user_table (serve_all requests db))
  ∧ NoDup (pair_of <$> participation_table (serve_all requests db)).
Proof.
  intros Hmail Hpair. by apply (serve_all_keeps_enrollment requests db).
Qed.

(** ** The join behind the participant list *)

Lemma filter_key_unique {A K : Type} `{EqDecision K} (key : A → K) (l : list A)
    (x : A) :
  NoDup (key <$> l) → x ∈ l → filter (λ y, key y = key x) l = [x].
Proof.
  intros Hdup (l1 & l2 & ->)%list_elem_of_split.
  rewrite fmap_app, fmap_cons in Hdup.
  apply NoDup_app in Hdup as (_ & Hl1 & [Hl2 _]%NoDup_cons).
  rewrite filter_app, filter_cons_True by done.
  rewrite !filter_none; [done| |].
  - intros y Hy Heq. apply Hl2. rewrite <- Heq. by apply list_elem_of_fmap_2.
  - intros y Hy Heq. apply (Hl1 (key y)); [by apply list_elem_of_fmap_2|].
    rewrite Heq. by left.
Qed.

Lemma user_of_participation (p : Participation.t) (db : Database) :
  store_ok db → p ∈ participation_table db →
  ∃ u, u ∈ user_table db
       ∧ filter (λ u, User.id u = Participation.user_id p) (user_table db) = [u].
Proof.
  intros Hok Hp.
  pose proof (user_fk db Hok p Hp) as (u & Hid & Hu)%list_elem_of_fmap.
  exists u. split; [done|]. rewrite Hid.
  apply (filter_key_unique User.id); [by apply (user_pk db)|done].
Qed.

Lemma joined_emails_length (db : Database) (l : list Participation.t) :
  store_ok db → (∀ p, p ∈ l → p ∈ participation_table db) →
  length (l ≫= λ p, filter (λ u, User.id u = Participation.user_id p) (user_table db)
                     ≫= λ u, [User.email u])
  = length l.
Proof.
  intros Hok. induction l as [|p l IH]; intros Hin; [done|].
  rewrite bind_cons, length_app, IH by (intros q Hq; apply Hin; by right).
  destruct (user_of_participation p db Hok) as (u & _ & ->); [apply Hin; left|].
  done.
Qed.

Lemma participant_count (aid : Z) (db : Database) :
  store_ok db →
  length (participant_emails aid db) = length (participations_of aid db).
Proof.
  intros Hok. unfold participant_emails. apply joined_emails_length; [done|].
  unfold participations_of. by intros p [_ Hp]%list_elem_of_filter.
Qed.

Lemma serve_all_keeps_capacity (rs : list Request) (db : Database) :
  NoDup (Activity.id <$> activity_table db) →
  capacity_ok db → capacity_ok (serve_all rs db).
Proof.
  revert db. unfold serve_all.
  induction rs as [|r rs IH]; intros db Hdup Hcap; [done|]. simpl.
  apply IH; [by rewrite serve_activities|by apply serve_keeps_capacity].
Qed.

(** X3: under the key constraints the join returns one email per
    Participation row of the activity, so an activity's participant list is
    as long as its Participation count; and along any sequence of requests
    from a database within capacity, no entry of the listing with a positive
    max_participants shows more participants than that. *)
Theorem listing_within_capacity (requests : list Request) (db : Database) :
  store_ok db →
  (∀ a, a ∈ activity_table db → 0 < Activity.max_participants a →
        Z.of_nat (length (participations_of (Activity.id a) db))
        ≤ Activity.max_participants a) →
  (∀ aid, length (participant_emails aid db) = length (participations_of aid db))
  ∧ ∃ out, (get_activities (serve_all requests db)).1 = Return out
      ∧ ∀ n info, out !! n = Some info →
                  0 < info_max_participants info →
                  Z.of_nat (length (info_participants info))
                  ≤ info_max_participants info.
Proof.
  intros Hok Hcap. fold (capacity_ok db) in Hcap.
  split; [intros aid; by apply participant_count|].
  exists (listing (serve_all requests db)).
  unfold get_activities. rewrite listing_run. split; [done|].
  intros n info Hn Hpos.
  rewrite listing_lookup_last in Hn.
  apply fmap_Some in Hn as (a & Hlast & ->). simpl in *.
  apply last_Some_elem_of, list_elem_of_filter in Hlast as [_ Hin].
  rewrite participant_count by (by apply serve_all_ok).
  apply (serve_all_keeps_capacity requests db); [by apply (activity_pk db)|done..].
Qed.

(** ** No student is listed twice *)

Lemma participant_emails_NoDup (aid : Z) (db : Database) :
  enrollment_ok db → NoDup (participant_emails aid db).
Proof.
  intros [Hmail Hpair]. unfold participant_emails, participations_of.
  induction (participation_table db) as [|p l IH]; [apply NoDup_nil_2|].
  rewrite fmap_cons in Hpair. apply NoDup_cons in Hpair as [Hp Hl].
  rewrite filter_cons. case_decide as Hact; [|by apply IH].
  rewrite bind_cons. apply NoDup_app. split; [|split; [|by apply IH]].
  - assert (∀ us : list User.t, us ≫= (λ u, [User.email u]) = User.email <$> us)
      as Hmap by (induction us as [|u us IHus]; [done|]; by rewrite bind_cons, IHus).
    cbv beta. rewrite Hmap. by apply NoDup_fmap_filter.
  - intros e (u & ->%list_elem_of_singleton & [Hid Hu]%list_elem_of_filter)%list_elem_of_bind.
    intros (q & (u' & He%list_elem_of_singleton & [Hid' Hu']%list_elem_of_filter)%list_elem_of_bind
              & [Hq Hin]%list_elem_of_filter)%list_elem_of_bind.
    assert (u = u') as <- by (by eapply (field_inj User.email)).
    apply Hp. apply list_elem_of_fmap. exists q. split; [|done].
    unfold pair_of. by rewrite Hact, Hq, <- Hid, Hid'.
Qed.

(** X4: when no two User rows share an email and no two Participation rows
    share an (activity, user) pair, no email occurs twice in the participant
    list of an activity; this holds in every database reached by requests
    from one without such duplicates. *)
Theorem participants_listed_once (requests : list Request) (aid : Z) (db : Database) :
  NoDup (User.email <$> user_table db) →
  NoDup (pair_of <$> participation_table db) →
  NoDup (participant_emails aid db)
  ∧ NoDup (participant_emails aid (serve_all requests db)).
Proof.
  intros Hmail Hpair. split; apply participant_emails_NoDup; [done|].
  by apply serve_all_keeps_enrollment.
Qed.

(** ** Responses in terms of the participant list *)

Lemma head_filter_elem {A : Type} (P : A → Prop) `{Pd : !∀ x, Decision (P x)}
    (l : list A) (x : A) :
  x ∈ l → P x → ∃ y, head (filter P l) = Some y.
Proof.
  intros Hx HP. destruct (head (filter P l)) as [y|] eqn:Hhead; [by exists y|].
  rewrite first_None in Hhead. by destruct (Hhead x).
Qed.

Lemma lookup_enrolled (aid : Z) (e : string) (u : User.t) (p : Participation.t)
    (db : Database) :
  head (users_with_email e db) = Some u →
  head (participations_of_pair aid (User.id u) db) = Some p →
  e ∈ participant_emails aid db.
Proof.
  intros [Hu Hmail]%first_Some [Hp [Hact Huid]]%first_Some.
  apply elem_of_participant_emails. by exists p, u.
Qed.

Lemma enrolled_lookup (aid : Z) (e : string) (db : Database) :
  NoDup (User.email <$> user_table db) → e ∈ participant_emails aid db →
  ∃ u p, head (users_with_email e db) = Some u
         ∧ head (participations_of_pair aid (User.id u) db) = Some p.
Proof.
  intros Hdup (p & u & Hp & Hact & Hu & Hid & Hmail)%elem_of_participant_emails.
  destruct (head_filter_elem (λ u, User.email u = e) (user_table db) u)
    as [u' Hu']; [done..|].
  pose proof Hu' as [Hin' Hmail']%first_Some.
  assert (u' = u) as -> by (eapply (field_inj User.email); [done..|congruence]).
  destruct (head_filter_elem
              (λ q, Participation.activity_id q = aid
                    ∧ Participation.user_id q = User.id u)
              (participation_table db) p) as [p' Hp']; [done..|].
  by exists u, p'.
Qed.

Lemma unregister_not_enrolled (n e : string) (a : Activity.t) (db : Database) :
  head (activities_named n db) = Some a →
  e ∉ participant_emails (Activity.id a) db →
  unregister_from_activity n e db = (Raise not_signed_up, db).
Proof.
  intros Ha Hne. rewrite unregister_run, Ha.
  destruct (head (users_with_email e db)) as [u|] eqn:Hu; [|done].
  destruct (head (participations_of_pair _ _ db)) as [p|] eqn:Hp; [|done].
  destruct Hne. by eapply lookup_enrolled.
Qed.

Lemma unregister_enrolled (n e : string) (a : Activity.t) (db : Database) :
  NoDup (User.email <$> user_table db) →
  head (activities_named n db) = Some a →
  e ∈ participant_emails (Activity.id a) db →
  ∃ u p, head (users_with_email e db) = Some u
         ∧ head (participations_of_pair (Activity.id a) (User.id u) db) = Some p
         ∧ unregister_from_activity n e db
           = (Return (unregistered_message e n),
              mkDatabase (activity_table db) (user_table db)
                (filter (λ q, Participation.id q ≠ Participation.id p)
                   (participation_table db))).
Proof.
  intros Hdup Ha Hin.
  destruct (enrolled_lookup _ _ _ Hdup Hin) as (u & p & Hu & Hp).
  exists u, p. by rewrite unregister_run, Ha, Hu, Hp.
Qed.

(** X5: when no two User rows share an email and foreign keys resolve, the
    response of a signup is decided by the name lookup, the activity's
    participant list and its capacity test, in that order: 404 for an
    unknown name, 400 "Student is already signed up" exactly when the email
    is in the participant list, otherwise 400 "Activity is full" exactly
    when max_participants is non-zero and reached, otherwise success. *)
Theorem signup_response (activity_name email : string) (db : Database) :
  store_ok db →
  NoDup (User.email <$> user_table db) →
  (signup_for_activity activity_name email db).1
  = match head (activities_named activity_name db) with
    | None => Raise (mkHTTPException 404 "Activity not found")
    | Some a =>
        if decide (email ∈ participant_emails (Activity.id a) db)
        then Raise (mkHTTPException 400 "Student is already signed up")
        else if decide (Activity.max_participants a ≠ 0
                        ∧ Activity.max_participants a
                          ≤ Z.of_nat (length (participations_of (Activity.id a) db)))
             then Raise (mkHTTPException 400 "Activity is full")
             else Return (mkMessage ("Signed up " +:+ email +:+ " for "
                                     +:+ activity_name))
    end.
Proof.
  intros Hok Hdup.
  destruct (head (activities_named activity_name db)) as [a|] eqn:Ha;
    [|by rewrite signup_run, Ha].
  case_decide as Hin.
  - destruct (enrolled_lookup _ _ _ Hdup Hin) as (u & p & Hu & Hp).
    rewrite signup_run, Ha. unfold with_user. by rewrite Hu, Hp.
  - case_decide as Hfull.
    + rewrite (signup_full _ _ a); [done..|]. by apply is_full_true.
    + rewrite (signup_succeeds _ _ a); [done..|].
      destruct (is_full a db) eqn:Hf; [|done]. by apply is_full_true in Hf.
Qed.

(** X6: when no two User rows share an email, the response of an unregister
    is decided by the name lookup and the activity's participant list: 404
    for an unknown name, success exactly when the email is in the
    participant list, otherwise 400 "Student is not signed up for this
    activity". *)
Theorem unregister_response (activity_name email : string) (db : Database) :
  NoDup (User.email <$> user_table db) →
  (unregister_from_activity activity_name email db).1
  = match head (activities_named activity_name db) with
    | None => Raise (mkHTTPException 404 "Activity not found")
    | Some a =>
        if decide (email ∈ participant_emails (Activity.id a) db)
        then Return (mkMessage ("Unregistered " +:+ email +:+ " from "
                                +:+ activity_name))
        else Raise (mkHTTPException 400 "Student is not signed up for this activity")
    end.
Proof.
  intros Hdup.
  destruct (head (activities_named activity_name db)) as [a|] eqn:Ha;
    [|by rewrite unregister_run, Ha].
  case_decide as Hin.
  - by destruct (unregister_enrolled activity_name email a db Hdup Ha Hin)
      as (u & p & _ & _ & ->).
  - by rewrite (unregister_not_enrolled _ _ a).
Qed.

(** ** What an unregister does to the participant lists *)

Lemma bind_filter {A B : Type} (f : A → list B) (P : A → Prop) (Q : B → Prop)
    `{Pd : !∀ x, Decision (P x)} `{Qd : !∀ x, Decision (Q x)} (l : list A) :
  (∀ q, q ∈ l → P q → ∀ x, x ∈ f q → Q x) →
  (∀ q, q ∈ l → ¬ P q → ∀ x, x ∈ f q → ¬ Q x) →
  filter P l ≫= f = filter Q (l ≫= f).
Proof.
  induction l as [|q l IH]; intros Hyes Hno; [done|].
  rewrite bind_cons, filter_app, <- IH; cycle 1.
  { intros q' Hq'. apply Hyes. by right. }
  { intros q' Hq'. apply Hno. by right. }
  rewrite filter_cons. case_decide as HP.
  - rewrite bind_cons. f_equal. symmetry. apply (filter_all Q (f q)).
    apply Hyes; [left|done].
  - rewrite (filter_none Q (f q)); [done|]. apply Hno; [left|done].
Qed.

Lemma participations_of_delete (aid : Z) (p : Participation.t) (db : Database) :
  participations_of aid
    (mkDatabase (activity_table db) (user_table db)
       (filter (λ q, Participation.id q ≠ Participation.id p)
          (participation_table db)))
  = filter (λ q, Participation.id q ≠ Participation.id p) (participations_of aid db).
Proof.
  unfold participations_of; simpl. rewrite !list_filter_filter.
  apply list_filter_iff. tauto.
Qed.

Lemma participant_emails_delete_other (aid : Z) (p : Participation.t)
    (db : Database) :
  NoDup (Participation.id <$> participation_table db) →
  p ∈ participation_table db → Participation.activity_id p ≠ aid →
  participant_emails aid
    (mkDatabase (activity_table db) (user_table db)
       (filter (λ q, Participation.id q ≠ Participation.id p)
          (participation_table db)))
  = participant_emails aid db.
Proof.
  intros Hdup Hp Hother. unfold participant_emails.
  rewrite participations_of_delete. simpl. f_equal.
  apply filter_all. intros q [Hq Hin]%list_elem_of_filter Heq.
  apply Hother. rewrite <- Hq. f_equal. symmetry.
  by eapply (key_inj Participation.id).
Qed.

Lemma participant_emails_delete (e : string) (u : User.t) (p : Participation.t)
    (db : Database) :
  store_ok db → enrollment_ok db →
  head (users_with_email e db) = Some u →
  head (participations_of_pair (Participation.activity_id p) (User.id u) db)
  = Some p →
  participant_emails (Participation.activity_id p)
    (mkDatabase (activity_table db) (user_table db)
       (filter (λ q, Participation.id q ≠ Participation.id p)
          (participation_table db)))
  = filter (λ x, x ≠ e) (participant_emails (Participation.activity_id p) db).
Proof.
  intros Hok [Hmail Hpair] [Hu Hue]%first_Some [Hp [_ Hpu]]%first_Some.
  unfold participant_emails. rewrite participations_of_delete. simpl.
  apply bind_filter.
  - intros q [Hqa Hq]%list_elem_of_filter Hne x
      (u' & ->%list_elem_of_singleton & [Hid Hu']%list_elem_of_filter)%list_elem_of_bind
      Hx.
    assert (u' = u) as -> by (eapply (field_inj User.email); [done..|congruence]).
    apply Hne. f_equal. eapply (field_inj pair_of); [done..|].
    unfold pair_of. by rewrite Hqa, <- Hid, Hpu.
  - intros q [Hqa Hq]%list_elem_of_filter Heq x
      (u' & ->%list_elem_of_singleton & [Hid Hu']%list_elem_of_filter)%list_elem_of_bind
      Hx.
    apply Hx. apply dec_stable in Heq.
    assert (q = p) as -> by (by eapply (key_inj Participation.id), Heq;
                             [apply (participation_pk db)|..]).
    assert (u' = u) as ->; [|done].
    eapply (key_inj User.id); [by apply (user_pk db)|done..|congruence].
Qed.

Lemma participations_of_delete_length (p : Participation.t) (db : Database) :
  NoDup (Participation.id <$> participation_table db) →
  p ∈ participation_table db →
  S (length (participations_of (Participation.activity_id p)
               (mkDatabase (activity_table db) (user_table db)
                  (filter (λ q, Participation.id q ≠ Participation.id p)
                     (participation_table db)))))
  = length (participations_of (Participation.activity_id p) db).
Proof.
  intros Hdup Hp. rewrite participations_of_delete.
  destruct (delete_one Participation.id
              (participations_of (Participation.activity_id p) db) p)
    as (l1 & l2 & Hsplit & ->).
  - by apply NoDup_fmap_filter.
  - by apply list_elem_of_filter.
  - rewrite Hsplit, !length_app. simpl. lia.
Qed.

(** X7: with unique keys, resolving foreign keys, one User row per email and
    one Participation row per pair, a successful unregister takes exactly
    that student off the activity's participant list: the list afterwards is
    the list before without the email, in the same order and one shorter,
    and the participant lists of activities with another key are as they
    were. *)
Theorem unregister_removes_student (activity_name email : string) (a : Activity.t)
    (db : Database) :
  store_ok db →
  NoDup (User.email <$> user_table db) →
  NoDup (pair_of <$> participation_table db) →
  head (activities_named activity_name db) = Some a →
  email ∈ participant_emails (Activity.id a) db →
  let after := (unregister_from_activity activity_name email db).2 in
  participant_emails (Activity.id a) after
  = filter (λ x, x ≠ email) (participant_emails (Activity.id a) db)
  ∧ (email ∉ participant_emails (Activity.id a) after)
  ∧ S (length (participant_emails (Activity.id a) after))
    = length (participant_emails (Activity.id a) db)
  ∧ ∀ aid, aid ≠ Activity.id a →
           participant_emails aid after = participant_emails aid db.
Proof.
  intros Hok Hmail Hpair Ha Hin. simpl.
  destruct (unregister_enrolled activity_name email a db Hmail Ha Hin)
    as (u & p & Hu & Hp & ->). simpl.
  pose proof Hp as [Hpin [Hpa _]]%first_Some. rewrite <- Hpa in *.
  assert (participant_emails (Participation.activity_id p)
            (mkDatabase (activity_table db) (user_table db)
               (filter (λ q, Participation.id q ≠ Participation.id p)
                  (participation_table db)))
          = filter (λ x, x ≠ email)
              (participant_emails (Participation.activity_id p) db)) as Hdel
    by (by apply (participant_emails_delete email u p db)).
  split; [done|]. split; [|split].
  - rewrite Hdel. intros [Hne _]%list_elem_of_filter. by apply Hne.
  - rewrite !participant_count; [|done|by apply delete_ok].
    apply participations_of_delete_length; [by apply (participation_pk db)|done].
  - intros aid Hother.
    apply participant_emails_delete_other;
      [by apply (participation_pk db)|done|congruence].
Qed.

(** X8: under the same conditions, an unregister that succeeded cannot be
    repeated: the second call with the same name and email fails with 400
    "Student is not signed up for this activity" and leaves the database as
    the first call left it. *)
Theorem unregister_twice (activity_name email : string) (m : Message)
    (db : Database) :
  store_ok db →
  NoDup (User.email <$> user_table db) →
  NoDup (pair_of <$> participation_table db) →
  (unregister_from_activity activity_name email db).1 = Return m →
  let first := unregister_from_activity activity_name email db in
  unregister_from_activity activity_name email first.2
  = (Raise (mkHTTPException 400 "Student is not signed up for this activity"),
     first.2).
Proof.
  intros Hok Hmail Hpair Hfirst. simpl.
  destruct (head (activities_named activity_name db)) as [a|] eqn:Ha;
    [|by rewrite unregister_run, Ha in Hfirst].
  destruct (decide (email ∈ participant_emails (Activity.id a) db)) as [Hin|Hne];
    [|by rewrite (unregister_not_enrolled _ _ a) in Hfirst].
  destruct (unregister_enrolled activity_name email a db Hmail Ha Hin)
    as (u & p & Hu & Hp & Hrun).
  rewrite Hrun. simpl. apply (unregister_not_enrolled _ _ a); [done|].
  pose proof Hp as [Hpin [Hpa _]]%first_Some. rewrite <- Hpa in *.
  rewrite (participant_emails_delete email u p db) by done.
  intros [Hne _]%list_elem_of_filter. by apply Hne.
Qed.

(** ** What a signup does to the participant lists *)

Lemma participant_emails_with_user_eq (aid : Z) (e : string) (db : Database) :
  store_ok db →
  participant_emails aid (with_user e db).2 = participant_emails aid db.
Proof.
  intros Hok. unfold participant_emails, participations_of.
  destruct (with_user_tables e db) as [_ ->].
  apply Forall_bind_ext, Forall_forall. intros p [_ Hp]%list_elem_of_filter.
  destruct (with_user_users e db) as [[_ ->]|(_ & _ & ->)]; [done|].
  rewrite filter_app, filter_cons_False, filter_nil, app_nil_r; [done|].
  intros Hid. apply (new_user_id_fresh e db).
  rewrite Hid. by apply (user_fk db).
Qed.

Lemma participant_emails_after_signup_eq (a : Activity.t) (aid : Z) (e : string)
    (db : Database) :
  store_ok db →
  participant_emails aid (after_signup a e db)
  = participant_emails aid db ++ (if decide (Activity.id a = aid) then [e] else []).
Proof.
  intros Hok. rewrite <- (participant_emails_with_user_eq aid e db Hok).
  unfold participant_emails at 1. rewrite participations_of_after_signup, bind_app.
  destruct (after_signup_tables a e db) as (_ & -> & _).
  f_equal.
  - unfold participant_emails, participations_of.
    by destruct (with_user_tables e db) as [_ ->].
  - case_decide; [|done]. rewrite bind_singleton. simpl.
    destruct (with_user_stored e db) as [Hstored Hmail].
    rewrite (filter_key_unique User.id);
      [|by apply (user_pk _), with_user_ok|done].
    by rewrite bind_singleton, Hmail.
Qed.

(** X9: under the key constraints, a successful signup appends the email to
    the end of the activity's participant list and leaves the participant
    list of every other activity key as it was. *)
Theorem signup_extends_participants (activity_name email : string) (a : Activity.t)
    (db : Database) :
  store_ok db →
  head (activities_named activity_name db) = Some a →
  email ∉ participant_emails (Activity.id a) db →
  Activity.max_participants a = 0
  ∨ Z.of_nat (length (participations_of (Activity.id a) db))
    < Activity.max_participants a →
  ∀ aid, participant_emails aid (signup_for_activity activity_name email db).2
         = participant_emails aid db
           ++ (if decide (aid = Activity.id a) then [email] else []).
Proof.
  intros Hok Ha Hne Hcap%is_full_false aid.
  rewrite (signup_succeeds _ _ a) by done. simpl.
  rewrite participant_emails_after_signup_eq by done.
  by repeat case_decide.
Qed.

(** ** The listing before and after a signup *)

Lemma listing_ext (db db' : Database) :
  activity_table db' = activity_table db →
  (∀ aid, participant_emails aid db' = participant_emails aid db) →
  listing db' = listing db.
Proof.
  intros Hacts Hpe. apply map_eq. intros n. rewrite !listing_lookup_last.
  unfold activities_named, entry. rewrite Hacts.
  destruct (last _); [|done]. simpl. by rewrite Hpe.
Qed.

Lemma signup_failure_database (activity_name e : string) (exc : HTTPException)
    (db : Database) :
  (signup_for_activity activity_name e db).1 = Raise exc →
  (signup_for_activity activity_name e db).2 = db
  ∨ (signup_for_activity activity_name e db).2 = (with_user e db).2.
Proof.
  rewrite signup_run. destruct (head (activities_named _ _)) as [a|]; [|by left].
  destruct (with_user e db) as [u db1]; simpl.
  destruct (head (participations_of_pair _ _ db1)); [by right|].
  by destruct (is_full a db1); [right|].
Qed.

(** X10: under the key constraints, a signup that fails leaves the listing
    exactly as it was, also when it has stored a new User row on the way. *)
Theorem failed_signup_keeps_listing (activity_name email : string)
    (exc : HTTPException) (db : Database) :
  store_ok db →
  (signup_for_activity activity_name email db).1 = Raise exc →
  (get_activities (signup_for_activity activity_name email db).2).1
  = (get_activities db).1.
Proof.
  intros Hok Hfail. unfold get_activities. rewrite !listing_run. simpl. f_equal.
  destruct (signup_failure_database _ _ _ _ Hfail) as [->| ->]; [done|].
  apply listing_ext; [apply with_user_tables|].
  intros aid. by apply participant_emails_with_user_eq.
Qed.

Lemma unique_name_row (n : string) (a : Activity.t) (db : Database) :
  NoDup (Activity.name <$> activity_table db) →
  head (activities_named n db) = Some a → activities_named n db = [a].
Proof.
  intros Hdup [Hin <-]%first_Some. unfold activities_named.
  by apply (filter_key_unique Activity.name).
Qed.

(** X11: with unique activity names and the key constraints, the listing
    after a successful signup is the listing before with one entry
    replaced: the entry under the activity's name, whose participant list
    has the email appended; every other entry is unchanged. *)
Theorem signup_updates_listing (activity_name email : string) (a : Activity.t)
    (db : Database) :
  store_ok db →
  NoDup (Activity.name <$> activity_table db) →
  head (activities_named activity_name db) = Some a →
  email ∉ participant_emails (Activity.id a) db →
  Activity.max_participants a = 0
  ∨ Z.of_nat (length (participations_of (Activity.id a) db))
    < Activity.max_participants a →
  ∀ before, (get_activities db).1 = Return before →
    (get_activities (signup_for_activity activity_name email db).2).1
    = Return (<[activity_name :=
                  mkInfo (Activity.description a) (Activity.schedule a)
                    (Activity.max_participants a)
                    (participant_emails (Activity.id a) db ++ [email])]> before).
Proof.
  intros Hok Hnames Ha Hne Hcap%is_full_false before.
  unfold get_activities. rewrite !listing_run. simpl. intros [= <-]. f_equal.
  rewrite (signup_succeeds _ _ a) by done. simpl.
  apply map_eq. intros n. rewrite listing_lookup_last.
  rewrite activities_named_after_signup.
  destruct (decide (activity_name = n)) as [<-|Hother].
  - rewrite lookup_insert_eq, (unique_name_row _ a) by done. simpl.
    unfold entry. by rewrite participant_emails_after_signup_eq, decide_True.
  - rewrite lookup_insert_ne, listing_lookup_last by done.
    destruct (last (activities_named n db)) as [a'|] eqn:Hlast; [|done]. simpl.
    unfold entry. rewrite participant_emails_after_signup_eq by done.
    rewrite decide_False, app_nil_r; [done|]. intros Hid.
    apply last_Some_elem_of, list_elem_of_filter in Hlast as [Hname Hin'].
    apply first_Some in Ha as [Hin Hn]. apply Hother. rewrite <- Hn, <- Hname.
    f_equal. eapply (key_inj Activity.id); [by apply (activity_pk db)|done..].
Qed.

(** ** A place given up can be taken *)

Lemma unregister_success_database (n e : string) (m : Message) (a : Activity.t)
    (db : Database) :
  head (activities_named n db) = Some a →
  (unregister_from_activity n e db).1 = Return m →
  ∃ p, p ∈ participation_table db ∧ Participation.activity_id p = Activity.id a
       ∧ (unregister_from_activity n e db).2
         = mkDatabase (activity_table db) (user_table db)
             (filter (λ q, Participation.id q ≠ Participation.id p)
                (participation_table db)).
Proof.
  intros Ha. rewrite unregister_run, Ha.
  destruct (head (users_with_email e db)) as [u|]; [|done].
  destruct (head (participations_of_pair _ _ db)) as [p|] eqn:Hp; [|done].
  intros _. apply first_Some in Hp as [Hin [Hact _]]. by exists p.
Qed.

(** X12: under the key constraints, for an activity whose participation
    count does not exceed its max_participants, a successful unregister
    lowers the count by exactly one, and a signup of a student who is not a
    participant then succeeds, also when the activity was full before. *)
Theorem unregister_frees_place (activity_name leaving joining : string)
    (m : Message) (a : Activity.t) (db : Database) :
  store_ok db →
  head (activities_named activity_name db) = Some a →
  Z.of_nat (length (participations_of (Activity.id a) db))
  ≤ Activity.max_participants a →
  (unregister_from_activity activity_name leaving db).1 = Return m →
  let after := (unregister_from_activity activity_name leaving db).2 in
  joining ∉ participant_emails (Activity.id a) after →
  S (length (participations_of (Activity.id a) after))
  = length (participations_of (Activity.id a) db)
  ∧ (signup_for_activity activity_name joining after).1
    = Return (mkMessage ("Signed up " +:+ joining +:+ " for " +:+ activity_name)).
Proof.
  intros Hok Ha Hcount Hleft. simpl.
  destruct (unregister_success_database _ _ _ _ _ Ha Hleft) as (p & Hp & Hact & ->).
  intros Hne. rewrite <- Hact in *.
  pose proof (participations_of_delete_length p db (participation_pk db Hok) Hp)
    as Hlen.
  split; [done|].
  rewrite (signup_succeeds _ _ a); [done| |by apply delete_ok|by rewrite <- Hact|].
  - unfold activities_named in *. by simpl.
  - apply is_full_false. right. rewrite <- Hact. lia.
Qed.

(** ** A negative capacity *)

(** X13: an activity stored with a negative max_participants admits nobody:
    every signup for it fails, with "Student is already signed up" or
    "Activity is full", and adds no Participation row. *)
Theorem negative_capacity_admits_nobody (activity_name email : string)
    (a : Activity.t) (db : Database) :
  head (activities_named activity_name db) = Some a →
  Activity.max_participants a < 0 →
  ((signup_for_activity activity_name email db).1
   = Raise (mkHTTPException 400 "Student is already signed up")
   ∨ (signup_for_activity activity_name email db).1
     = Raise (mkHTTPException 400 "Activity is full"))
  ∧ participation_table (signup_for_activity activity_name email db).2
    = participation_table db.
Proof.
  intros Ha Hneg. rewrite signup_run, Ha.
  assert (is_full a (with_user email db).2 = true) as Hfull
    by (apply is_full_true; lia).
  destruct (with_user_tables email db) as [_ Hparts].
  destruct (with_user email db) as [u db1]; simpl in *.
  destruct (head (participations_of_pair _ _ db1)); [by split; [left|]|].
  rewrite Hfull. by split; [right|].
Qed.

(** ** User rows only accumulate *)

Lemma serve_users (db : Database) (r : Request) :
  user_table db `prefix_of` user_table (serve db r)
  ∧ (length (user_table (serve db r)) ≤ S (length (user_table db)))%nat.
Proof.
  assert (∀ e, user_table db `prefix_of` user_table (with_user e db).2
               ∧ (length (user_table (with_user e db).2)
                  ≤ S (length (user_table db)))%nat) as Hwith.
  { intros e. destruct (with_user_users e db) as [[_ ->]|(_ & _ & ->)].
    - split; [done|lia].
    - split; [by apply prefix_app_r|]. rewrite length_app. simpl. lia. }
  destruct r as [n e|n e]; simpl.
  - destruct (signup_database n e db) as [->|[->|(a & _ & _ & ->)]].
    + split; [done|lia].
    + apply Hwith.
    + destruct (after_signup_tables a e db) as (_ & -> & _). apply Hwith.
  - destruct (unregister_tables n e db) as [_ ->]. split; [done|lia].
Qed.

(** X14: no request changes or removes a User row: along any sequence of
    requests the User table only grows at its end, by at most one row per
    request. *)
Theorem users_only_accumulate (requests : list Request) (db : Database) :
  user_table db `prefix_of` user_table (serve_all requests db)
  ∧ (length (user_table (serve_all requests db))
     ≤ length (user_table db) + length requests)%nat.
Proof.
  revert db. unfold serve_all.
  induction requests as [|r rs IH]; intros db; simpl.
  - split; [done|lia].
  - destruct (serve_users db r) as [Hpre Hlen]. destruct (IH (serve db r)) as [IHp IHl].
    split; [by etrans|lia].
Qed.

(** ** The key constraints along a run *)

(** X15: seeding and every sequence of signup and unregister requests keep
    the key constraints: keys stay unique in each table, and every
    Participation row keeps pointing at a stored Activity row and a stored
    User row. *)
Theorem key_constraints_kept (requests : list Request) (db : Database) :
  store_ok db →
  store_ok (seed_initial_activities_if_needed db).2
  ∧ store_ok (serve_all requests db)
  ∧ store_ok (serve_all requests (seed_initial_activities_if_needed db).2).
Proof.
  intros Hok. split; [by apply seed_ok|].
  split; [by apply serve_all_ok|by apply serve_all_ok, seed_ok].
Qed.

(** ** What no request changes in the listing *)

(** X16: no sequence of requests adds an entry to the listing, removes one,
    or changes the description, schedule or max_participants under a name;
    only participant lists change. *)
Theorem listing_entries_fixed (requests : list Request) (n : string)
    (db : Database) :
  ∃ before after,
    (get_activities db).1 = Return before
    ∧ (get_activities (serve_all requests db)).1 = Return after
    ∧ (λ i, (info_description i, info_schedule i, info_max_participants i))
        <$> after !! n
      = (λ i, (info_description i, info_schedule i, info_max_participants i))
          <$> before !! n.
Proof.
  exists (listing db), (listing (serve_all requests db)).
  unfold get_activities. rewrite !listing_run. split; [done|]. split; [done|].
  rewrite !listing_lookup_last. unfold activities_named.
  rewrite serve_all_activities. by destruct (last _).
Qed.

(** ** Every write is committed *)

Lemma for_each_reads {A S : Type} (xs : list A) (body : A → S → Tx S)
    (acc : S) (s : Session) :
  (∀ x a s', (body x a s').2 = s' ∧ ∃ a', (body x a s').1 = Return a') →
  (for_each xs body acc s).2 = s.
Proof.
  intros Hbody. revert acc. induction xs as [|x xs IH]; intros acc; [done|].
  simpl. unfold mbind, tx_bind.
  destruct (Hbody x acc s) as [Hs [a' Ha']].
  destruct (body x acc s) as [r s']; simpl in *. subst. apply IH.
Qed.

(** X17: each block that runs inside a session ends with nothing
    uncommitted, whether it returns or raises: in signup, unregister,
    seeding and the listing every write is followed by a commit before the
    block is left, so closing the session never discards a change. *)
Theorem every_write_committed (activity_name email : string) (db : Database) :
  let clean := mkSession db db in
  view (signup_body activity_name email clean).2
  = committed (signup_body activity_name email clean).2
  ∧ view (unregister_body activity_name email clean).2
    = committed (unregister_body activity_name email clean).2
  ∧ view (seed_body clean).2 = committed (seed_body clean).2
  ∧ (activities_as_dict_body clean).2 = clean.
Proof.
  simpl. split; [|split; [|split]].
  - unfold signup_body, mbind, tx_bind, exec, mret, tx_ret, raise; simpl.
    destruct (head (activities_named activity_name db)) as [a|]; [|done]. simpl.
    destruct (head (users_with_email email db)) as [u|]; simpl.
    + destruct (head (participations_of_pair _ _ db)); [done|]; simpl.
      by destruct (_ && _).
    + destruct (head (participations_of_pair _ _ _)); [done|]; simpl.
      by destruct (_ && _).
  - unfold unregister_body, mbind, tx_bind, exec, mret, tx_ret, raise; simpl.
    destruct (head (activities_named activity_name db)) as [a|]; [|done]. simpl.
    destruct (head (users_with_email email db)) as [u|]; [|done]; simpl.
    by destruct (head (participations_of_pair _ _ db)).
  - by destruct db as [[|a acts] users parts].
  - unfold activities_as_dict_body, mbind, tx_bind, exec at 1; simpl.
    apply for_each_reads. intros x a s'. split; [done|]. by eexists.
Qed.

(** ** Leaving and joining again *)

(** X18: under the key constraints, with one User row per email and one
    Participation row per pair, a participant of an activity that is within
    its capacity can unregister and sign up again; both calls succeed and
    the participant list ends as the list before with the email moved to
    its end. *)
Theorem unregister_then_signup (activity_name email : string) (a : Activity.t)
    (db : Database) :
  store_ok db →
  NoDup (User.email <$> user_table db) →
  NoDup (pair_of <$> participation_table db) →
  head (activities_named activity_name db) = Some a →
  email ∈ participant_emails (Activity.id a) db →
  Z.of_nat (length (participations_of (Activity.id a) db))
  ≤ Activity.max_participants a →
  let s1 := unregister_from_activity activity_name email db in
  let s2 := signup_for_activity activity_name email s1.2 in
  s1.1 = Return (mkMessage ("Unregistered " +:+ email +:+ " from "
                            +:+ activity_name))
  ∧ s2.1 = Return (mkMessage ("Signed up " +:+ email +:+ " for " +:+ activity_name))
  ∧ participant_emails (Activity.id a) s2.2
    = filter (λ x, x ≠ email) (participant_emails (Activity.id a) db) ++ [email].
Proof.
  intros Hok Hmail Hpair Ha Hin Hcount. simpl.
  destruct (unregister_enrolled activity_name email a db Hmail Ha Hin)
    as (u & p & Hu & Hp & ->). simpl. split; [done|].
  pose proof Hp as [Hpin [Hpa _]]%first_Some.
  set (db' := mkDatabase (activity_table db) (user_table db)
                (filter (λ q, Participation.id q ≠ Participation.id p)
                   (participation_table db))).
  assert (store_ok db') as Hok' by (by apply delete_ok).
  assert (participant_emails (Activity.id a) db'
          = filter (λ x, x ≠ email) (participant_emails (Activity.id a) db)) as Hdel.
  { rewrite <- Hpa in *. by apply (participant_emails_delete email u p db). }
  assert (email ∉ participant_emails (Activity.id a) db') as Hne.
  { rewrite Hdel. intros [Hx _]%list_elem_of_filter. by apply Hx. }
  assert (is_full a db' = false) as Hfree.
  { apply is_full_false. right.
    pose proof (participations_of_delete_length p db (participation_pk db Hok) Hpin)
      as Hlen. rewrite Hpa in Hlen. fold db' in Hlen. lia. }
  rewrite (signup_succeeds _ _ a); [|done..]. simpl. split; [done|].
  by rewrite participant_emails_after_signup_eq, decide_True, Hdel.
Qed.

(** ** Concrete runs of the further properties *)

(** Ten signups for the Math Club followed by a repeated one and an
    unregister leave no duplicate email or pair. *)
Lemma no_duplicate_enrollment_witness :
  NoDup (User.email
         <$> user_table
               (serve_all [Signup "Math Club" "s01@mergington.edu";
                           Unregister "Math Club" "s02@mergington.edu";
                           Signup "Chess Club" "s01@mergington.edu"]
                  math_club_full))
  ∧ NoDup (pair_of
           <$> participation_table
                 (serve_all [Signup "Math Club" "s01@mergington.edu";
                             Unregister "Math Club" "s02@mergington.edu";
                             Signup "Chess Club" "s01@mergington.edu"]
                    math_club_full)).
Proof.
  apply (no_duplicate_enrollment _ math_club_full);
    apply (bool_decide_unpack _); evaluate.
Defined.

(** The full Math Club lists as many emails as it has participations. *)
Lemma listing_within_capacity_witness :
  length (participant_emails 8 math_club_full)
  = length (participations_of 8 math_club_full).
Proof.
  apply (listing_within_capacity [] math_club_full).
  - apply check_store_ok. evaluate.
  - apply (proj1 (Forall_forall
                    (λ a, 0 < Activity.max_participants a →
                          Z.of_nat (length (participations_of (Activity.id a)
                                              math_club_full))
                          ≤ Activity.max_participants a)
                    (activity_table math_club_full))).
    apply (bool_decide_unpack _). evaluate.
Defined.

(** No student is listed twice for the full Math Club. *)
Lemma participants_listed_once_witness :
  NoDup (participant_emails 8 math_club_full)
  ∧ NoDup (participant_emails 8
             (serve_all [Signup "Math Club" "s01@mergington.edu"] math_club_full)).
Proof.
  apply (participants_listed_once _ 8 math_club_full);
    apply (bool_decide_unpack _); evaluate.
Defined.

(** A participant of the full Math Club is told so before the capacity is
    looked at. *)
Lemma signup_response_witness :
  (signup_for_activity "Math Club" "s01@mergington.edu" math_club_full).1
  = Raise (mkHTTPException 400 "Student is already signed up").
Proof.
  etrans.
  - apply (signup_response "Math Club" "s01@mergington.edu" math_club_full).
    + apply check_store_ok. evaluate.
    + apply (bool_decide_unpack _). evaluate.
  - evaluate.
Defined.

(** A student who never signed up cannot unregister from the Math Club. *)
Lemma unregister_response_witness :
  (unregister_from_activity "Math Club" "late@mergington.edu" math_club_full).1
  = Raise (mkHTTPException 400 "Student is not signed up for this activity").
Proof.
  etrans.
  - apply (unregister_response "Math Club" "late@mergington.edu" math_club_full).
    apply (bool_decide_unpack _). evaluate.
  - evaluate.
Defined.

(** The third student leaves the Math Club. *)
Lemma unregister_removes_student_witness :
  participant_emails 8
    (unregister_from_activity "Math Club" "s03@mergington.edu" math_club_full).2
  = filter (λ x, x ≠ "s03@mergington.edu") (participant_emails 8 math_club_full)
  ∧ ("s03@mergington.edu"
     ∉ participant_emails 8
         (unregister_from_activity "Math Club" "s03@mergington.edu"
            math_club_full).2).
Proof.
  destruct (unregister_removes_student "Math Club" "s03@mergington.edu" math_club
              math_club_full) as (Hlist & Hgone & _).
  - apply check_store_ok. evaluate.
  - apply (bool_decide_unpack _). evaluate.
  - apply (bool_decide_unpack _). evaluate.
  - evaluate.
  - apply (bool_decide_unpack _). evaluate.
  - exact (conj Hlist Hgone).
Defined.

(** The third student cannot leave the Math Club twice. *)
Lemma unregister_twice_witness :
  unregister_from_activity "Math Club" "s03@mergington.edu"
    (unregister_from_activity "Math Club" "s03@mergington.edu" math_club_full).2
  = (Raise (mkHTTPException 400 "Student is not signed up for this activity"),
     (unregister_from_activity "Math Club" "s03@mergington.edu" math_club_full).2).
Proof.
  apply (unregister_twice "Math Club" "s03@mergington.edu"
           (mkMessage "Unregistered s03@mergington.edu from Math Club")
           math_club_full).
  - apply check_store_ok. evaluate.
  - apply (bool_decide_unpack _). evaluate.
  - apply (bool_decide_unpack _). evaluate.
  - evaluate.
Defined.

(** A first student joins the Chess Club of the seeded database. *)
Lemma signup_extends_participants_witness :
  participant_emails 1 (signup_for_activity "Chess Club" "a@x.com" seeded_db).2
  = participant_emails 1 seeded_db
    ++ (if decide (1 = Activity.id chess_club) then ["a@x.com"] else []).
Proof.
  apply (signup_extends_participants "Chess Club" "a@x.com" chess_club seeded_db).
  - apply check_store_ok. evaluate.
  - evaluate.
  - apply (bool_decide_unpack _). evaluate.
  - right. evaluate.
Defined.

(** The late student of the full Math Club does not show in the listing. *)
Lemma failed_signup_keeps_listing_witness :
  (get_activities
     (signup_for_activity "Math Club" "late@mergington.edu" math_club_full).2).1
  = (get_activities math_club_full).1.
Proof.
  apply (failed_signup_keeps_listing "Math Club" "late@mergington.edu"
           (mkHTTPException 400 "Activity is full") math_club_full).
  - apply check_store_ok. evaluate.
  - evaluate.
Defined.

(** The listing after the first signup for the Chess Club. *)
Lemma signup_updates_listing_witness :
  (get_activities (signup_for_activity "Chess Club" "a@x.com" seeded_db).2).1
  = Return (<["Chess Club" :=
                mkInfo (Activity.description chess_club)
                  (Activity.schedule chess_club)
                  (Activity.max_participants chess_club)
                  (participant_emails (Activity.id chess_club) seeded_db
                   ++ ["a@x.com"])]> (listing seeded_db)).
Proof.
  apply (signup_updates_listing "Chess Club" "a@x.com" chess_club seeded_db).
  - apply check_store_ok. evaluate.
  - apply (bool_decide_unpack _). evaluate.
  - evaluate.
  - apply (bool_decide_unpack _). evaluate.
  - right. evaluate.
  - unfold get_activities. by rewrite listing_run.
Defined.

(** Once the third student has left the full Math Club, the late student
    gets in. *)
Lemma unregister_frees_place_witness :
  S (length (participations_of 8
               (unregister_from_activity "Math Club" "s03@mergington.edu"
                  math_club_full).2))
  = length (participations_of 8 math_club_full)
  ∧ (signup_for_activity "Math Club" "late@mergington.edu"
       (unregister_from_activity "Math Club" "s03@mergington.edu"
          math_club_full).2).1
    = Return (mkMessage ("Signed up " +:+ "late@mergington.edu" +:+ " for "
                         +:+ "Math Club")).
Proof.
  apply (unregister_frees_place "Math Club" "s03@mergington.edu"
           "late@mergington.edu"
           (mkMessage "Unregistered s03@mergington.edu from Math Club")
           math_club math_club_full).
  - apply check_store_ok. evaluate.
  - evaluate.
  - evaluate.
  - evaluate.
  - apply (bool_decide_unpack _). evaluate.
Defined.

(** Nobody gets into the club stored with capacity -1. *)
Lemma negative_capacity_admits_nobody_witness :
  ((signup_for_activity "Closed Club" "a@x.com" closed_club_db).1
   = Raise (mkHTTPException 400 "Student is already signed up")
   ∨ (signup_for_activity "Closed Club" "a@x.com" closed_club_db).1
     = Raise (mkHTTPException 400 "Activity is full"))
  ∧ participation_table (signup_for_activity "Closed Club" "a@x.com" closed_club_db).2
    = participation_table closed_club_db.
Proof.
  apply (negative_capacity_admits_nobody "Closed Club" "a@x.com" closed_club
           closed_club_db); evaluate.
Defined.

(** Start-up on a new file followed by two requests. *)
Lemma key_constraints_kept_witness :
  store_ok (seed_initial_activities_if_needed empty_db).2
  ∧ store_ok (serve_all [Signup "Chess Club" "a@x.com";
                         Unregister "Chess Club" "a@x.com"] empty_db)
  ∧ store_ok (serve_all [Signup "Chess Club" "a@x.com";
                         Unregister "Chess Club" "a@x.com"]
                (seed_initial_activities_if_needed empty_db).2).
Proof.
  apply (key_constraints_kept _ empty_db). apply check_store_ok. evaluate.
Defined.

(** The third student leaves the full Math Club and joins again, now last
    on the list. *)
Lemma unregister_then_signup_witness :
  let s1 := unregister_from_activity "Math Club" "s03@mergington.edu"
              math_club_full in
  let s2 := signup_for_activity "Math Club" "s03@mergington.edu" s1.2 in
  s1.1 = Return (mkMessage ("Unregistered " +:+ "s03@mergington.edu" +:+ " from "
                            +:+ "Math Club"))
  ∧ s2.1 = Return (mkMessage ("Signed up " +:+ "s03@mergington.edu" +:+ " for "
                              +:+ "Math Club"))
  ∧ participant_emails (Activity.id math_club) s2.2
    = filter (λ x, x ≠ "s03@mergington.edu")
        (participant_emails (Activity.id math_club) math_club_full)
      ++ ["s03@mergington.edu"].
Proof.
  apply (unregister_then_signup "Math Club" "s03@mergington.edu" math_club
           math_club_full).
  - apply check_store_ok. evaluate.
  - apply (bool_decide_unpack _). evaluate.
  - apply (bool_decide_unpack _). evaluate.
  - evaluate.
  - apply (bool_decide_unpack _). evaluate.
  - evaluate.
Defined.
